(** * MoneyBoard / CashFlowVision: the ledger core of [app.py]

    A shallow embedding of the computational core of the Streamlit
    application [app.py]: the aggregation helpers [compute_summary] and
    [cumulative_balance], the rule based [generate_insights], the
    handlers that load, enter, delete and import transactions, the filters
    of the sidebar, the registry of categories and the tables behind the
    dashboard and the charts.

    Conventions.
    - A calendar date ([datetime.date]) is its day number, an integer;
      [timedelta(days=n)] is the integer [n].
    - An [amount] is an integer; sums are exact.  pandas stores the column
      as [int64]; the statements below are about ledgers whose partial sums
      stay inside that range.
    - The two Python floating point expressions of [generate_insights]
      ([tot_in * 0.1] and the percent change) are computed over the
      rationals.
    - [date.today()] is the explicit argument [today].
    - pandas and numpy functions whose algorithm is not part of [app.py]
      (the CSV and spreadsheet readers, the date parser, the iteration
      order of a Python [set], the sorting kernel) are parameters of the
      functions that call them. *)

From Stdlib Require Import ZArith QArith List String Ascii Bool Lia.
From Stdlib Require Import DecimalString.
From Stdlib Require Import Permutation Sorted.
From Stdlib Require OrdersEx.
Import ListNotations.

Open Scope string_scope.
Open Scope list_scope.
Open Scope Z_scope.

(** ** Transactions *)

(** One row of the data frame after normalisation: the five columns
    [expected_cols] of [app.py]. *)
Record Transaction : Type := mkTransaction {
  date : Z;
  description : string;
  category : string;
  type : string;
  amount : Z
}.

(** [Series.sum()] of an integer column. *)
Definition sum (xs : list Z) : Z := fold_right Z.add 0 xs.



(** ** Basic calculations *)

(** [compute_summary(df)]. *)
Definition compute_summary (df : list Transaction) : Z * Z * Z :=
  let total_masuk := sum (map amount (filter (fun r => (type r =? "Masuk")%string) df)) in
  let total_keluar := sum (map amount (filter (fun r => (type r =? "Keluar")%string) df)) in
  let saldo := total_masuk - total_keluar in
  (total_masuk, total_keluar, saldo).

(** ** Sorting

    [DataFrame.sort_values(by)] computes [indexer = nargsort(keys, kind)]
    and returns [self.take(indexer)].  [app.py] leaves [kind] at its
    default, ["quicksort"], so the indexer is numpy's
    [argsort(kind="quicksort")] over the key column. *)

(** [DataFrame.take(indexer)]. *)
Definition take {A : Type} (indexer : list nat) (rows : list A) : list A :=
  flat_map (fun i => match nth_error rows i with
                     | Some r => [r]
                     | None => []
                     end) indexer.


(** What numpy documents of [argsort], whatever the [kind]: the result is
    a permutation of the positions that lists the keys in ascending
    order. *)
Definition argsort_ok (argsort : list Z -> list nat) : Prop :=
  forall keys,
    Permutation (argsort keys) (seq 0 (List.length keys)) /\
    Sorted Z.le (map (fun i => nth i keys 0) (argsort keys)).

(** A stable argsort by insertion ([kind="stable"]): a position is
    inserted after the positions whose key is not greater. *)
Fixpoint insert_pos (keys : list Z) (i : nat) (sorted : list nat) : list nat :=
  match sorted with
  | [] => [i]
  | j :: rest =>
      if nth i keys 0 <? nth j keys 0 then i :: j :: rest
      else j :: insert_pos keys i rest
  end.

Definition stable_argsort (keys : list Z) : list nat :=
  fold_left (fun acc i => insert_pos keys i acc) (seq 0 (List.length keys)) [].

(** ** Running balance *)




(** ** numpy's default sorting kernel

    [npy_aquicksort] (numpy, [npysort/quicksort]) is the kernel behind
    [argsort(kind="quicksort")] for an object column such as the
    [datetime.date] column of the ledger: an introsort over the index
    array [tosort], comparing the keys [v] through it.  Partitions longer
    than [SMALL_QUICKSORT + 1] are split around a median of three, shorter
    ones are insertion sorted, and [npy_aheapsort] takes over when the
    depth budget [2 * msb(num)] is used up.  Index arrays are lists;
    C pointers into [tosort] are positions. *)
Module Numpy.

Definition SMALL_QUICKSORT : nat := 16.

Section Kernel.
(** The key array. *)
Variable v : list Z.

(** [cmp(v + i, v + j) < 0]. *)
Definition LT (i j : nat) : bool := nth i v 0 <? nth j v 0.

Definition get (a : list nat) (p : nat) : nat := nth p a 0%nat.

Fixpoint set (a : list nat) (p : nat) (x : nat) : list nat :=
  match a, p with
  | [], _ => []
  | _ :: rest, O => x :: rest
  | y :: rest, S p' => y :: set rest p' x
  end.

(** [INTP_SWAP] of the entries at positions [p] and [q]. *)
Definition swap (a : list nat) (p q : nat) : list nat :=
  set (set a p (get a q)) q (get a p).

(** [do ++pi while (tosort[pi] < vp && pi < pj)]. *)
Fixpoint scan_up (fuel : nat) (a : list nat) (vp pi pj : nat) : nat :=
  let pi := S pi in
  match fuel with
  | O => pi
  | S fuel' =>
      if LT (get a pi) vp && (pi <? pj)%nat then scan_up fuel' a vp pi pj
      else pi
  end.

(** [do --pj while (vp < tosort[pj] && pi < pj)]. *)
Fixpoint scan_down (fuel : nat) (a : list nat) (vp pi pj : nat) : nat :=
  let pj := pred pj in
  match fuel with
  | O => pj
  | S fuel' =>
      if LT vp (get a pj) && (pi <? pj)%nat then scan_down fuel' a vp pi pj
      else pj
  end.

(** The [for (;;)] loop of the partition: returns the index array and
    the final [pi]. *)
Fixpoint partition_loop (fuel : nat) (a : list nat) (vp pi pj : nat)
    : list nat * nat :=
  match fuel with
  | O => (a, pi)
  | S fuel' =>
      let pi := scan_up (List.length a) a vp pi pj in
      let pj := scan_down (List.length a) a vp pi pj in
      if (pj <=? pi)%nat then (a, pi)
      else partition_loop fuel' (swap a pi pj) vp pi pj
  end.

(** One pass of [while ((pr - pl) > SMALL_QUICKSORT)]: median of three,
    the pivot parked at [pr - 1], the partition, the pivot moved to its
    place [pi]. *)
Definition partition (a : list nat) (pl pr : nat) : list nat * nat :=
  let pm := (pl + Nat.div2 (pr - pl))%nat in
  let a := if LT (get a pm) (get a pl) then swap a pm pl else a in
  let a := if LT (get a pr) (get a pm) then swap a pr pm else a in
  let a := if LT (get a pm) (get a pl) then swap a pm pl else a in
  let vp := get a pm in
  let pi := pl in
  let pj := (pr - 1)%nat in
  let a := swap a pm pj in
  let '(a, pi) := partition_loop (List.length a) a vp pi pj in
  let pk := (pr - 1)%nat in
  (swap a pi pk, pi).

(** [while (pj > pl && vi < tosort[pk])]: shift the entry at [pk] up. *)
Fixpoint shift_down (fuel : nat) (a : list nat) (vi pl pj : nat) : list nat * nat :=
  match fuel with
  | O => (a, pj)
  | S fuel' =>
      let pk := pred pj in
      if (pl <? pj)%nat && LT vi (get a pk)
      then shift_down fuel' (set a pj (get a pk)) vi pl pk
      else (a, pj)
  end.

(** The insertion sort of positions [pl .. pr]: [count] is the number of
    positions still to insert, [pi] the next one. *)
Fixpoint insertion (count : nat) (a : list nat) (pl pi : nat) : list nat :=
  match count with
  | O => a
  | S count' =>
      let vi := get a pi in
      let '(a, pj) := shift_down (List.length a) a vi pl pi in
      insertion count' (set a pj vi) pl (S pi)
  end.

(** The sift of [npy_aheapsort] on the one-based heap [a[1..n]]
    ([heap] holds [a[1]] at position 0). *)
Fixpoint sift (fuel : nat) (heap : list nat) (n tmp i j : nat) : list nat :=
  match fuel with
  | O => set heap (i - 1) tmp
  | S fuel' =>
      if (j <=? n)%nat then
        let j := if (j <? n)%nat && LT (get heap (j - 1)) (get heap j)
                 then S j else j in
        if LT tmp (get heap (j - 1))
        then sift fuel' (set heap (i - 1) (get heap (j - 1))) n tmp j (j + j)
        else set heap (i - 1) tmp
      else set heap (i - 1) tmp
  end.

(** [for (l = n >> 1; l > 0; --l)]: build the heap. *)
Fixpoint heapify (l : nat) (heap : list nat) (n : nat) : list nat :=
  match l with
  | O => heap
  | S l' =>
      heapify l' (sift n heap n (get heap (l - 1)) l (l + l)) n
  end.

(** [for (; n > 1;)]: move the maximum to the end, shrink the heap. *)
Fixpoint heap_extract (n : nat) (heap : list nat) : list nat :=
  match n with
  | O => heap
  | S O => heap
  | S n' =>
      let tmp := get heap (n - 1) in
      let heap := set heap (n - 1) (get heap 0) in
      heap_extract n' (sift n heap n' tmp 1 2)
  end.

(** [npy_aheapsort(vec, pl, pr - pl + 1, varr)]. *)
Definition aheapsort (a : list nat) (pl pr : nat) : list nat :=
  let n := (pr - pl + 1)%nat in
  let heap := firstn n (skipn pl a) in
  let heap := heap_extract n (heapify (Nat.div2 n) heap n) in
  firstn pl a ++ heap ++ skipn (pl + n) a.

(** The main loop.  [stack] holds the postponed partitions with the
    depth budget saved for each.  [fresh] tells that [pl .. pr] was just
    taken up (at the start or from the stack): only then is the depth
    budget looked at; the inner [while] keeps partitioning without
    looking. *)
Fixpoint aquicksort_loop (fuel : nat) (fresh : bool) (a : list nat)
    (pl pr : nat) (cdepth : Z) (stack : list (nat * nat * Z)) : list nat :=
  match fuel with
  | O => a
  | S fuel' =>
      if fresh && (cdepth <? 0) then
        let a := aheapsort a pl pr in
        match stack with
        | [] => a
        | (pl', pr', d) :: stack' =>
            aquicksort_loop fuel' true a pl' pr' d stack'
        end
      else if (SMALL_QUICKSORT <? pr - pl)%nat then
        let '(a, pi) := partition a pl pr in
        (* push largest partition on stack *)
        if (pi - pl <? pr - pi)%nat
        then aquicksort_loop fuel' false a pl (pi - 1)%nat (cdepth - 1)
               ((S pi, pr, cdepth - 1) :: stack)
        else aquicksort_loop fuel' false a (S pi) pr (cdepth - 1)
               ((pl, (pi - 1)%nat, cdepth - 1) :: stack)
      else
        let a := insertion (pr - pl) a pl (S pl) in
        match stack with
        | [] => a
        | (pl', pr', d) :: stack' =>
            aquicksort_loop fuel' true a pl' pr' d stack'
        end
  end.
End Kernel.

(** [npy_get_msb(num)]. *)
Definition npy_get_msb (num : nat) : Z := Z.log2 (Z.of_nat num).

(** [np.argsort(v, kind="quicksort")]: [tosort] starts as [0 .. num-1]. *)
Definition argsort (v : list Z) : list nat :=
  let num := List.length v in
  if (num <=? 1)%nat then seq 0 num
  else aquicksort_loop v (2 * num) true (seq 0 num) 0 (num - 1)
         (npy_get_msb num * 2) [].

End Numpy.

(** ** Rule based analysis *)

(** A line of the first list [generate_insights] returns.  Each
    constructor is one f-string of the source; its arguments are the
    values the f-string formats. *)
Inductive Insight : Type :=
| NoData
    (* "Belum ada data transaksi untuk dianalisis." *)
| Totals (tot_in tot_out saldo : Z)
    (* "Total pemasukan: Rp .. Total pengeluaran: Rp .. Saldo akhir: Rp .." *)
| NetFlow (days_window recent_sum : Z)
    (* "Arus kas bersih dalam .. hari terakhir: Rp .. Tidak ada data
       periode sebelumnya untuk perbandingan." *)
| Comparison (days_window : Z) (sign : string) (pct_change : Q)
    (* "Perbandingan arus kas bersih .. hari terakhir terhadap periode
       sebelumnya: sign (pct_change% perubahan)." *)
| TopCategory (top_cat_name : string) (top_cat_val : Z)
    (* "Kategori pengeluaran terbesar: .. (Rp ..). Pertimbangkan ..." *)
| NoSpending.
    (* "Belum ada pengeluaran tercatat." *)

Definition advice_negative : string :=
  "Saldo negatif: lakukan pengurangan pengeluaran atau cari pemasukan tambahan.".
Definition advice_low : string :=
  "Saldo rendah relatif terhadap total pemasukan. Saran: sisihkan dana darurat minimal 10% dari pemasukan bulanan.".
Definition advice_healthy : string :=
  "Saldo sehat sejauh ini. Pertahankan arus kas dan catat pengeluaran rutin.".
Definition advice_small : string :=
  "Banyak pengeluaran kecil (< Rp50.000). Gabungkan atau kurangi frekuensi jika memungkinkan untuk efisiensi.".

Definition actions : list string :=
  [ "Buat anggaran per kategori dan batasi kategori terbesar.";
    "Eksport data setiap bulan untuk backup.";
    "Aktifkan notifikasi saat saldo di bawah threshold (fitur lanjutan)." ].

(** [x < y] on rationals, as a boolean. *)
Definition Qltb (x y : Q) : bool :=
  match (x ?= y)%Q with Lt => true | _ => false end.

(** [groupby(key).amount.sum()]: one entry per key, keys ascending. *)
Fixpoint group_add (k : string) (x : Z) (groups : list (string * Z))
    : list (string * Z) :=
  match groups with
  | [] => [(k, x)]
  | (k', s) :: rest =>
      if (k =? k')%string then (k', s + x) :: rest
      else if (k <? k')%string then (k, x) :: (k', s) :: rest
      else (k', s) :: group_add k x rest
  end.

Definition groupby_sum (rows : list Transaction) : list (string * Z) :=
  fold_left (fun groups r => group_add (category r) (amount r) groups) rows [].

(** [nargsort(keys, ascending=False)]: the keys are reversed, sorted
    ascending, and the indexer is mapped back and reversed. *)
Definition argsort_descending (argsort : list Z -> list nat) (keys : list Z)
    : list nat :=
  let n := List.length keys in
  rev (map (fun i => (n - 1 - i)%nat) (argsort (rev keys))).

(** [generate_insights(df, days_window)], with [date.today()] passed in. *)
Definition generate_insights (argsort : list Z -> list nat) (today : Z)
    (df : list Transaction) (days_window : Z) : list Insight * list string :=
  match df with
  | [] => ([NoData], [])
  | _ :: _ =>
      let '(tot_in, tot_out, saldo) := compute_summary df in
      let insights := [Totals tot_in tot_out saldo] in
      (* trend: compare last 30 days vs previous 30 days *)
      let end_recent := today in
      let start_recent := today - (days_window - 1) in
      let start_prev := start_recent - days_window in
      let end_prev := start_recent - 1 in
      let recent_mask := fun r => (start_recent <=? date r) && (date r <=? end_recent) in
      let prev_mask := fun r => (start_prev <=? date r) && (date r <=? end_prev) in
      let where_ := fun (t : string) r => if (type r =? t)%string then amount r else 0 in
      let recent_sum :=
        sum (map (where_ "Masuk") (filter recent_mask df))
        - sum (map (where_ "Keluar") (filter recent_mask df)) in
      let prev_sum :=
        sum (map (where_ "Masuk") (filter prev_mask df))
        - sum (map (where_ "Keluar") (filter prev_mask df)) in
      let insights :=
        insights ++
        (if prev_sum =? 0 then [NetFlow days_window recent_sum]
         else
           let pct_change :=
             (inject_Z (recent_sum - prev_sum) / inject_Z (Z.abs prev_sum)
              * inject_Z 100)%Q in
           let sign :=
             if Qltb 0 pct_change then "naik"
             else if Qltb pct_change 0 then "turun" else "stabil" in
           [Comparison days_window sign pct_change]) in
      (* top spending categories *)
      let out_df := filter (fun r => (type r =? "Keluar")%string) df in
      let insights :=
        insights ++
        (match out_df with
         | _ :: _ =>
             let groups := groupby_sum out_df in
             let top_cat :=
               take (argsort_descending argsort (map snd groups)) groups in
             match top_cat with
             | (top_cat_name, top_cat_val) :: _ =>
                 [TopCategory top_cat_name top_cat_val]
             | [] => []
             end
         | [] => [NoSpending]
         end) in
      (* simple rule-based advice *)
      let advice :=
        if saldo <? 0 then [advice_negative]
        else if Qltb (inject_Z saldo) (inject_Z tot_in * (1 # 10))%Q
             then [advice_low]
             else [advice_healthy] in
      (* check many small transactions *)
      let small_out := filter (fun r => amount r <? 50000) out_df in
      let advice :=
        if (5 <? List.length small_out)%nat then advice ++ [advice_small]
        else advice in
      (insights, advice ++ actions)
  end.

(** ** Exceptions and effects *)

(** A Python exception: its class and [str(e)]. *)
Record exn : Type := mkExn { cls : string; msg : string }.

Inductive result (A : Type) : Type :=
| Ok (a : A)
| Raise (e : exn).
Arguments Ok {A} a.
Arguments Raise {A} e.

Definition bind {A B : Type} (r : result A) (k : A -> result B) : result B :=
  match r with
  | Ok a => k a
  | Raise e => Raise e
  end.

Notation "x <- r ;; k" := (bind r (fun x => k))
  (at level 61, r at next level, right associativity).

(** What a handler does besides computing: calls of [save_data] and of
    [DataFrame.to_csv] (with the frame handed over), messages shown with
    [st.error] and [st.success], and [st.experimental_rerun()], which ends
    the script run. *)
Inductive Effect (F : Type) : Type :=
| SaveData (df : F)
| ToCsv (df : F)
| StError (message : string)
| StSuccess (message : string)
| Rerun.
Arguments SaveData {F} df.
Arguments ToCsv {F} df.
Arguments StError {F} message.
Arguments StSuccess {F} message.
Arguments Rerun {F}.

(** ** Tabel Transaksi: deleting a row *)

(** [Series.min()] and [Series.max()] of the [csv_index] column: [None]
    is the [NaN] of an empty column. *)
Definition index_min (idx : list Z) : option Z :=
  match idx with
  | [] => None
  | i :: rest => Some (fold_left Z.min rest i)
  end.

Definition index_max (idx : list Z) : option Z :=
  match idx with
  | [] => None
  | i :: rest => Some (fold_left Z.max rest i)
  end.

(** [int(x)] of a float that may be [NaN]. *)
Definition int_of_float (x : option Z) : result Z :=
  match x with
  | Some z => Ok z
  | None => Raise (mkExn "ValueError" "cannot convert float NaN to integer")
  end.

(** [df.reset_index()]: the rows with their position as [csv_index]. *)
Definition reset_index {A : Type} (df : list A) : list (Z * A) :=
  combine (map Z.of_nat (seq 0 (List.length df))) df.

(** [st.number_input(label, min_value, max_value, value)]: the number in
    the widget, which starts at [value]; [entered] is what the user put
    there, if anything.  The widget itself keeps what is entered between
    [min_value] and [max_value]. *)
Definition number_input (min_value max_value value : Z) (entered : option Z) : Z :=
  match entered with
  | Some x => x
  | None => value
  end.

(** The "Hapus Transaksi" block of the page: [entered] is the state of the
    number input, [clicked] that of the button. *)
Definition hapus_transaksi {A : Type} (df : list A) (entered : option Z)
    (clicked : bool) : result (list (Effect (list A))) :=
  let df_display := reset_index df in
  lo <- int_of_float (index_min (map fst df_display)) ;;
  hi <- int_of_float (index_max (map fst df_display)) ;;
  let sel_index := number_input lo hi hi entered in
  if clicked then
    let df_new := map snd (filter (fun r => negb (fst r =? sel_index)) df_display) in
    Ok [SaveData df_new;
        StSuccess "Baris dihapus. Reload app untuk melihat perubahan.";
        Rerun]
  else Ok [].

(** ** Data frames as read from files *)

(** A cell of a frame that came out of a reader. *)
Inductive value : Type :=
| VInt (z : Z)
| VFloat (q : Q)
| VInf (negative : bool)
| VNaN
| VBool (b : bool)
| VStr (s : string)
| VDate (d : Z)
| VNaT.

(** A numeric cell, as [pd.to_numeric] returns them. *)
Inductive number : Type :=
| NInt (z : Z)
| NFloat (q : Q)
| NInf (negative : bool)
| NNaN.

(** A frame: its columns in order, each with its cells. *)
Definition DataFrame : Type := list (string * list value).

Definition columns (df : DataFrame) : list string := map fst df.

(** [c in df.columns]. *)
Definition has_column (c : string) (df : DataFrame) : bool :=
  existsb (String.eqb c) (columns df).

(** [len(df)]. *)
Definition nrows (df : DataFrame) : nat :=
  match df with
  | [] => O
  | (_, cells) :: _ => List.length cells
  end.

(** [df[c]]. *)
Fixpoint getitem (df : DataFrame) (c : string) : result (list value) :=
  match df with
  | [] => Raise (mkExn "KeyError" ("'" ++ c ++ "'")%string)
  | (c', cells) :: rest =>
      if (c' =? c)%string then Ok cells else getitem rest c
  end.

(** [df[c] = cells]: an existing column is replaced where it stands, a new
    one is added at the end. *)
Fixpoint setitem (df : DataFrame) (c : string) (cells : list value) : DataFrame :=
  match df with
  | [] => [(c, cells)]
  | (c', old) :: rest =>
      if (c' =? c)%string then (c', cells) :: rest
      else (c', old) :: setitem rest c cells
  end.

(** [df.iloc[:, 0]]. *)
Definition iloc_first_column (df : DataFrame) : result (list value) :=
  match df with
  | [] => Raise (mkExn "IndexError" "single positional indexer is out-of-bounds")
  | (_, cells) :: _ => Ok cells
  end.

(** [df[names]]. *)
Fixpoint select (df : DataFrame) (names : list string) : result DataFrame :=
  match names with
  | [] => Ok []
  | c :: rest =>
      cells <- getitem df c ;;
      tail <- select df rest ;;
      Ok ((c, cells) :: tail)
  end.

(** [pd.concat([df1, df2], ignore_index=True)]: the columns of [df1], then
    those that only [df2] has; a frame that lacks a column gets [NaN]
    there. *)
Definition column_or_nan (df : DataFrame) (c : string) : list value :=
  match getitem df c with
  | Ok cells => cells
  | Raise _ => repeat VNaN (nrows df)
  end.

Definition concat (df1 df2 : DataFrame) : DataFrame :=
  let names :=
    columns df1 ++ filter (fun c => negb (has_column c df1)) (columns df2) in
  map (fun c => (c, column_or_nan df1 c ++ column_or_nan df2 c)) names.

(** [Series.astype(int)] on one cell of a numeric column: a float is
    truncated towards zero, a non-finite one makes the cast fail. *)
Definition astype_int (x : number) : result Z :=
  match x with
  | NInt z => Ok z
  | NFloat q => Ok (Z.quot (Qnum q) (Z.pos (Qden q)))
  | NInf _ | NNaN =>
      Raise (mkExn "IntCastingNaNError"
               "Cannot convert non-finite values (NA or inf) to integer")
  end.

Fixpoint mapM {A B : Type} (f : A -> result B) (xs : list A) : result (list B) :=
  match xs with
  | [] => Ok []
  | x :: rest =>
      y <- f x ;;
      ys <- mapM f rest ;;
      Ok (y :: ys)
  end.

Definition expected_cols : list string :=
  ["date"; "description"; "category"; "type"; "amount"].

(** [create_sample_data()]'s frame. *)
Definition sample : DataFrame :=
  [ ("date", [VStr "2025-11-01"; VStr "2025-11-02"; VStr "2025-11-03";
              VStr "2025-11-05"; VStr "2025-11-12"; VStr "2025-11-20"]);
    ("description", [VStr "Penjualan Produk A"; VStr "Beli Bahan";
                     VStr "Project X"; VStr "Transport"; VStr "Freelance";
                     VStr "Listrik"]);
    ("category", [VStr "Penjualan"; VStr "Operasional"; VStr "Proyek";
                  VStr "Transport"; VStr "Part-time"; VStr "Operasional"]);
    ("type", [VStr "Masuk"; VStr "Keluar"; VStr "Masuk"; VStr "Keluar";
              VStr "Masuk"; VStr "Keluar"]);
    ("amount", [VInt 1500000; VInt 300000; VInt 2500000; VInt 75000;
                VInt 500000; VInt 200000]) ].

(** [s.endswith(suffix)]. *)
Definition endswith (s suffix : string) : bool :=
  let n := String.length s in
  let m := String.length suffix in
  (m <=? n)%nat && (String.substring (n - m) m s =? suffix)%string.

(** [str(n)] of a length. *)
Definition str_of_nat (n : nat) : string :=
  DecimalString.NilZero.string_of_uint (Nat.to_uint n).

(** An uploaded file: [uploaded.name] and what the readers read. *)
Record UploadedFile (bytes : Type) : Type := mkUploadedFile {
  name : string;
  content : bytes
}.
Arguments mkUploadedFile {bytes} name content.
Arguments name {bytes} u.
Arguments content {bytes} u.

Section Ledger.
(** The content of a file. *)
Variable bytes : Type.

(** [pd.read_csv] and [pd.read_excel]. *)
Variable read_csv : bytes -> result DataFrame.
Variable read_excel : bytes -> result DataFrame.

(** [df.to_excel(writer, index=False, sheet_name=..)] into the [BytesIO]
    of an openpyxl [pd.ExcelWriter]. *)
Variable to_excel : DataFrame -> string -> bytes.

(** [pd.to_datetime(col).dt.date]: the dates of a column, or the
    exception of an entry that is not a date. *)
Variable to_datetime_date : list value -> result (list value).

(** The number a string cell stands for, if pandas reads it as one. *)
Variable parse_number : string -> option number.

(** [list(required)]: the five names in the iteration order of the
    Python [set]. *)
Variable list_required : list string.

(** [pd.to_numeric(col, errors="coerce")] on one cell: what is not a
    number becomes [NaN]. *)
Definition to_numeric_coerce (v : value) : number :=
  match v with
  | VInt z => NInt z
  | VFloat q => NFloat q
  | VInf negative => NInf negative
  | VNaN => NNaN
  | VBool b => NInt (if b then 1 else 0)
  | VStr s =>
      match parse_number s with
      | Some x => x
      | None => NNaN
      end
  | VDate _ | VNaT => NNaN
  end.

(** [Series.fillna(0)] on one cell. *)
Definition fillna_0 (x : number) : number :=
  match x with
  | NNaN => NInt 0
  | _ => x
  end.

(** [pd.to_numeric(col, errors="coerce").fillna(0).astype(int)]. *)
Definition normalize_amount (col : list value) : result (list value) :=
  ints <- mapM (fun v => astype_int (fillna_0 (to_numeric_coerce v))) col ;;
  Ok (map VInt ints).

(** [load_data()]: [store] is the content of [DATA_FILE], if the file
    exists. *)
Definition load_data (store : option bytes)
    : result (DataFrame * list (Effect DataFrame)) :=
  match store with
  | None => Ok (sample, [ToCsv sample])
  | Some file =>
      df <- read_csv file ;;
      (* normalize *)
      df <- (if has_column "date" df
             then col <- getitem df "date" ;;
                  dates <- to_datetime_date col ;;
                  Ok (setitem df "date" dates)
             else col <- iloc_first_column df ;;
                  dates <- to_datetime_date col ;;
                  Ok (setitem df "date" dates)) ;;
      df <- (if has_column "amount" df
             then col <- getitem df "amount" ;;
                  amounts <- normalize_amount col ;;
                  Ok (setitem df "amount" amounts)
             else Ok (setitem df "amount" (repeat (VInt 0) (nrows df)))) ;;
      Ok (df, [])
  end.

(** [save_data(df)]: the dates are formatted, the frame is written. *)
Definition save_data (df : DataFrame) : result (list (Effect DataFrame)) :=
  col <- getitem df "date" ;;
  _ <- to_datetime_date col ;;
  Ok [SaveData df].


(** The five names of [required], as the source lists them. *)
Definition required : list string :=
  ["date"; "description"; "category"; "type"; "amount"].

(** [required.issubset(set(cols))]. *)
Definition issubset (names cols : list string) : bool :=
  forallb (fun c => existsb (String.eqb c) cols) names.

(** The reading of the uploaded file and the normalisation of its date
    column, the first statements of the [try] block. *)
Definition read_incoming (uploaded : UploadedFile bytes) : result DataFrame :=
  incoming <- (if endswith (name uploaded) ".csv"
               then read_csv (content uploaded)
               else read_excel (content uploaded)) ;;
  (* normalize date *)
  col <- getitem incoming "date" ;;
  dates <- to_datetime_date col ;;
  Ok (setitem incoming "date" dates).

(** The merge of the [else] branch.  The frame of the page is the first
    component: the assignment [df = pd.concat(..)] stands even when a
    later statement raises. *)
Definition merge_incoming (df incoming : DataFrame)
    : DataFrame * result (list (Effect DataFrame)) :=
  match select incoming list_required with
  | Raise e => (df, Raise e)
  | Ok selected =>
      let df := concat df selected in
      match (col <- getitem df "amount" ;; normalize_amount col) with
      | Raise e => (df, Raise e)
      | Ok amounts =>
          let df := setitem df "amount" amounts in
          match save_data df with
          | Raise e => (df, Raise e)
          | Ok saved =>
              (df, Ok (saved ++
                       [StSuccess ("Berhasil mengimpor "
                                   ++ str_of_nat (nrows incoming)
                                   ++ " baris.")%string;
                        Rerun]))
          end
      end
  end.

(** The "Impor CSV / Excel" block: the frame of the page afterwards and
    what the block did. *)
Definition impor (df : DataFrame) (uploaded : option (UploadedFile bytes))
    : DataFrame * list (Effect DataFrame) :=
  match uploaded with
  | None => (df, [])
  | Some file =>
      let failed (e : exn) : list (Effect DataFrame) :=
        [StError ("Gagal mengimpor: " ++ msg e)%string] in
      match read_incoming file with
      | Raise e => (df, failed e)
      | Ok incoming =>
          if negb (issubset required (columns incoming))
          then (df, [StError "File tidak sesuai. Pastikan kolom: date,description,category,type,amount"])
          else
            match merge_incoming df incoming with
            | (df, Raise e) => (df, failed e)
            | (df, Ok effects) => (df, effects)
            end
      end
  end.

End Ledger.

(** ** Reference notions for the statements *)







(** Net cash flow of the rows dated from [lo] to [hi], both included:
    their inflow less their outflow. *)
Definition net_flow (df : list Transaction) (lo hi : Z) : Z :=
  let '(_, _, saldo) :=
    compute_summary (filter (fun r => (lo <=? date r) && (date r <=? hi)) df) in
  saldo.

(** [(recent - previous) / |previous| * 100]. *)
Definition percent_change (recent previous : Z) : Q :=
  (inject_Z (recent - previous) / inject_Z (Z.abs previous) * inject_Z 100)%Q.

(** Up if positive, down if negative, stable if zero. *)
Definition classify (pct : Q) : string :=
  match (pct ?= 0)%Q with
  | Gt => "naik"
  | Lt => "turun"
  | Eq => "stabil"
  end.

(** The trend line for a recent and a preceding net flow. *)
Definition trend_line (days_window recent previous : Z) : Insight :=
  if previous =? 0 then NetFlow days_window recent
  else Comparison days_window (classify (percent_change recent previous))
         (percent_change recent previous).

(** The advice line for a balance and a total inflow: the three rules in
    order. *)
Definition severity_advice (saldo tot_in : Z) : string :=
  if saldo <? 0 then advice_negative
  else if 10 * saldo <? tot_in then advice_low
  else advice_healthy.


(** The outflows below the small-transaction threshold. *)
Definition small_outflows (df : list Transaction) : list Transaction :=
  filter (fun r => (type r =? "Keluar")%string && (amount r <? 50000)) df.


(** ** A concrete reading of the library functions

    Enough of pandas to run the handlers on examples: a file is the table
    it holds, a date is written [YYYY-MM-DD], a number is a run of decimal
    digits with an optional sign. *)
Module Sample.

Definition digit (c : ascii) : option Z :=
  let n := Z.of_nat (nat_of_ascii c) in
  if (48 <=? n) && (n <=? 57) then Some (n - 48) else None.

Fixpoint digits (acc : Z) (s : string) : option Z :=
  match s with
  | EmptyString => Some acc
  | String c rest =>
      match digit c with
      | Some d => digits (10 * acc + d) rest
      | None => None
      end
  end.

(** A non-empty run of digits. *)
Definition natural (s : string) : option Z :=
  match s with
  | EmptyString => None
  | _ => digits 0 s
  end.

(** Days from 1970-01-01 to the given day of the proleptic Gregorian
    calendar. *)
Definition days_from_civil (y m d : Z) : Z :=
  let y := if m <=? 2 then y - 1 else y in
  let era := y / 400 in
  let yoe := y - era * 400 in
  let doy := (153 * (if 2 <? m then m - 3 else m + 9) + 2) / 5 + d - 1 in
  let doe := yoe * 365 + yoe / 4 - yoe / 100 + doy in
  era * 146097 + doe - 719468.

Definition days_in_month (y m : Z) : Z :=
  if m =? 2 then
    if ((y mod 4 =? 0) && negb (y mod 100 =? 0)) || (y mod 400 =? 0)
    then 29 else 28
  else if (m =? 4) || (m =? 6) || (m =? 9) || (m =? 11) then 30
  else 31.

(** [YYYY-MM-DD] to its day number. *)
Definition parse_date (s : string) : option Z :=
  if (String.length s =? 10)%nat
     && (String.substring 4 1 s =? "-")%string
     && (String.substring 7 1 s =? "-")%string
  then
    match natural (String.substring 0 4 s),
          natural (String.substring 5 2 s),
          natural (String.substring 8 2 s) with
    | Some y, Some m, Some d =>
        if (1 <=? m) && (m <=? 12) && (1 <=? d) && (d <=? days_in_month y m)
        then Some (days_from_civil y m d)
        else None
    | _, _, _ => None
    end
  else None.

Definition to_date (v : value) : result value :=
  match v with
  | VDate d => Ok (VDate d)
  | VNaT | VNaN => Ok VNaT
  | VStr s =>
      match parse_date s with
      | Some d => Ok (VDate d)
      | None => Raise (mkExn "ValueError" ("Unknown datetime string format, unable to parse: " ++ s)%string)
      end
  | _ => Raise (mkExn "TypeError" "not convertible to datetime")
  end.

Definition to_datetime_date (col : list value) : result (list value) :=
  mapM to_date col.

Definition parse_number (s : string) : option number :=
  match s with
  | String "-" rest => option_map (fun n => NInt (- n)) (natural rest)
  | String "+" rest => option_map NInt (natural rest)
  | _ => option_map NInt (natural s)
  end.

Definition read (file : DataFrame) : result DataFrame := Ok file.


End Sample.

(** ** The rest of the page script *)

(** [s.isin(values)] on one entry. *)
Definition isin (values : list string) (s : string) : bool :=
  existsb (String.eqb s) values.

(** The global filters of the sidebar: the dates of the two date inputs,
    both included, then the selected types and categories; an empty
    selection does not restrict. *)
Definition apply_filters (df : list Transaction) (min_date max_date : Z)
    (sel_types sel_cats : list string) : list Transaction :=
  let filtered := df in
  match filtered with
  | [] => filtered
  | _ :: _ =>
      let filtered :=
        filter (fun r => (min_date <=? date r) && (date r <=? max_date)) filtered in
      let filtered :=
        match sel_types with
        | [] => filtered
        | _ :: _ => filter (fun r => isin sel_types (type r)) filtered
        end in
      let filtered :=
        match sel_cats with
        | [] => filtered
        | _ :: _ => filter (fun r => isin sel_cats (category r)) filtered
        end in
      filtered
  end.

(** [filtered if not filtered.empty else df], the frame the dashboard and
    the charts work on. *)
Definition filtered_or_all (filtered df : list Transaction) : list Transaction :=
  match filtered with
  | [] => df
  | _ :: _ => filtered
  end.

(** The three metrics of "Dashboard Utama". *)
Definition dashboard_metrics (df : list Transaction) (min_date max_date : Z)
    (sel_types sel_cats : list string) : Z * Z * Z :=
  let filtered := apply_filters df min_date max_date sel_types sel_cats in
  compute_summary (filtered_or_all filtered df).

(** "5 Transaksi Terakhir": [df.sort_values("date", ascending=False).head(5)]. *)
Definition transaksi_terakhir (argsort : list Z -> list nat)
    (df : list Transaction) : list Transaction :=
  firstn 5 (take (argsort_descending argsort (map date df)) df).

(** [st.session_state.categories]: a Python [dict], which keeps its keys
    in the order they came in. *)
Definition default_categories : list (string * string) :=
  [ ("Penjualan", "Masuk");
    ("Proyek", "Masuk");
    ("Part-time", "Masuk");
    ("Operasional", "Keluar");
    ("Transport", "Keluar");
    ("Bahan baku", "Keluar");
    ("Lainnya", "Keluar") ].

(** [d[k] = v]: the value of a key that is there is replaced where it
    stands, a new key goes to the end. *)
Fixpoint dict_set (d : list (string * string)) (k v : string)
    : list (string * string) :=
  match d with
  | [] => [(k, v)]
  | (k', v') :: rest =>
      if (k' =? k)%string then (k', v) :: rest
      else (k', v') :: dict_set rest k v
  end.

(** [d.pop(k, None)]. *)
Fixpoint dict_pop (d : list (string * string)) (k : string)
    : list (string * string) :=
  match d with
  | [] => []
  | (k', v') :: rest =>
      if (k' =? k)%string then rest
      else (k', v') :: dict_pop rest k
  end.

(** [d.get(k)]. *)
Fixpoint dict_get (d : list (string * string)) (k : string) : option string :=
  match d with
  | [] => None
  | (k', v') :: rest =>
      if (k' =? k)%string then Some v' else dict_get rest k
  end.

(** The options of the category select box of "Input Transaksi":
    [[k for k, v in categories.items() if v == ttype] or ["Lainnya"]]. *)
Definition category_options (categories : list (string * string))
    (ttype : string) : list string :=
  match map fst (filter (fun kv => (snd kv =? ttype)%string) categories) with
  | [] => ["Lainnya"]
  | k :: ks => k :: ks
  end.


(** "Kelola Kategori", the button "Tambah kategori": [strip] is
    [str.strip]. *)
Definition tambah_kategori (strip : string -> string)
    (categories : list (string * string)) (new_name new_type : string)
    : list (string * string) * list (Effect (list (string * string))) :=
  match strip new_name with
  | EmptyString => (categories, [])
  | String _ _ =>
      (dict_set categories (strip new_name) new_type,
       [StSuccess ("Kategori '" ++ new_name ++ "' ditambahkan.")%string])
  end.

(** "Kelola Kategori", the button "Hapus kategori". *)
Definition hapus_kategori (categories : list (string * string)) (rem : string)
    : list (string * string) * list (Effect (list (string * string))) :=
  (dict_pop categories rem,
   [StSuccess ("Kategori '" ++ rem ++ "' dihapus.")%string]).

(** The loop after [load_data()] that makes sure the expected columns
    exist: a missing text column is filled with the empty string, a
    missing amount with 0. *)
Definition ensure_columns (df : DataFrame) : DataFrame :=
  fold_left
    (fun df c =>
       if has_column c df then df
       else setitem df c
              (repeat (if (c =? "amount")%string then VInt 0 else VStr "")
                 (nrows df)))
    expected_cols df.

Section Script.
Variable bytes : Type.
Variable read_csv : bytes -> result DataFrame.
Variable read_excel : bytes -> result DataFrame.
Variable to_datetime_date : list value -> result (list value).
Variable parse_number : string -> option number.
Variable list_required : list string.



End Script.

(** ** Reference notions for the statements on the categories of spending *)



(** The third line of the insights: the largest category of spending, or
    the line that says there is no spending. *)
Definition spending_line (argsort : list Z -> list nat) (df : list Transaction)
    : list Insight :=
  let out_df := filter (fun r => (type r =? "Keluar")%string) df in
  match out_df with
  | _ :: _ =>
      let groups := groupby_sum out_df in
      let top_cat := take (argsort_descending argsort (map snd groups)) groups in
      match top_cat with
      | (top_cat_name, top_cat_val) :: _ => [TopCategory top_cat_name top_cat_val]
      | [] => []
      end
  | [] => [NoSpending]
  end.


(** * Lists, sums and indexers *)


Lemma sum_Permutation (xs ys : list Z) : Permutation xs ys -> sum xs = sum ys.
Proof. unfold sum. induction 1; simpl; lia. Qed.




Lemma take_nil {A} (rows : list A) : take [] rows = [].
Proof. reflexivity. Qed.

Lemma take_cons {A} i idx (rows : list A) :
  take (i :: idx) rows =
  match nth_error rows i with Some r => [r] | None => [] end ++ take idx rows.
Proof. reflexivity. Qed.


Lemma take_seq_shift {A} (pre rows : list A) :
  take (seq (List.length pre) (List.length rows)) (pre ++ rows) = rows.
Proof.
  revert pre. induction rows as [|r rows IH]; intros pre; [reflexivity|].
  cbn [List.length seq]. rewrite take_cons.
  rewrite nth_error_app2 by lia. rewrite Nat.sub_diag. cbn [nth_error].
  cbn [app]. f_equal.
  specialize (IH (pre ++ [r])).
  rewrite length_app in IH. cbn [List.length] in IH.
  rewrite Nat.add_1_r in IH. rewrite <- app_assoc in IH. exact IH.
Qed.

Lemma take_seq {A} (rows : list A) : take (seq 0 (List.length rows)) rows = rows.
Proof. exact (take_seq_shift [] rows). Qed.

Lemma take_Permutation {A} idx (rows : list A) :
  Permutation idx (seq 0 (List.length rows)) -> Permutation (take idx rows) rows.
Proof.
  intros H. rewrite <- (take_seq rows) at 2.
  unfold take. apply Permutation_flat_map. exact H.
Qed.

Lemma take_in_range {A B} (f : A -> B) d idx (rows : list A) :
  Forall (fun i => (i < List.length rows)%nat) idx ->
  map f (take idx rows) = map (fun i => nth i (map f rows) d) idx.
Proof.
  induction 1 as [|i idx Hi _ IH]; [reflexivity|].
  rewrite take_cons. cbn [map].
  destruct (nth_error rows i) as [r|] eqn:E.
  - cbn [app map]. rewrite IH. f_equal.
    rewrite (nth_indep _ d (f r)) by (rewrite length_map; exact Hi).
    rewrite map_nth. f_equal. symmetry. apply nth_error_nth. exact E.
  - apply nth_error_None in E. lia.
Qed.

Lemma Permutation_seq_range idx n :
  Permutation idx (seq 0 n) -> Forall (fun i => (i < n)%nat) idx.
Proof.
  intros H. apply Forall_forall. intros i Hi.
  apply (Permutation_in _ H) in Hi. apply in_seq in Hi. lia.
Qed.

Lemma take_length {A} idx (rows : list A) :
  Permutation idx (seq 0 (List.length rows)) ->
  List.length (take idx rows) = List.length rows.
Proof. intros H. apply Permutation_length. apply take_Permutation. exact H. Qed.

(** * The stable argsort meets the contract of [argsort] *)

Section StableArgsort.
Variable keys : list Z.

Let key (i : nat) : Z := nth i keys 0.

Lemma insert_pos_Permutation i l : Permutation (insert_pos keys i l) (i :: l).
Proof.
  induction l as [|j l IH]; cbn [insert_pos]; [reflexivity|].
  destruct (nth i keys 0 <? nth j keys 0); [reflexivity|].
  rewrite IH. apply perm_swap.
Qed.

Lemma insert_pos_HdRel x i l :
  key x <= key i -> HdRel Z.le (key x) (map key l) ->
  HdRel Z.le (key x) (map key (insert_pos keys i l)).
Proof.
  intros Hxi Hl. destruct l as [|j l]; cbn [insert_pos map].
  - constructor. exact Hxi.
  - destruct (nth i keys 0 <? nth j keys 0); cbn [map].
    + constructor. exact Hxi.
    + inversion Hl; subst. constructor. assumption.
Qed.

Lemma insert_pos_Sorted i l :
  Sorted Z.le (map key l) -> Sorted Z.le (map key (insert_pos keys i l)).
Proof.
  induction l as [|j l IH]; intros Hs; cbn [insert_pos map].
  - repeat constructor.
  - destruct (nth i keys 0 <? nth j keys 0) eqn:E; cbn [map].
    + constructor; [exact Hs|]. constructor.
      apply Z.ltb_lt in E. unfold key. lia.
    + inversion Hs as [|? ? Hs' Hhd]; subst. constructor.
      * apply IH. exact Hs'.
      * apply insert_pos_HdRel; [|exact Hhd].
        apply Z.ltb_ge in E. exact E.
Qed.

Lemma fold_insert_pos_Permutation xs acc :
  Permutation (fold_left (fun acc i => insert_pos keys i acc) xs acc) (xs ++ acc).
Proof.
  revert acc. induction xs as [|x xs IH]; intros acc; cbn [fold_left app]; [reflexivity|].
  rewrite IH. rewrite insert_pos_Permutation. symmetry. apply Permutation_middle.
Qed.

Lemma fold_insert_pos_Sorted xs acc :
  Sorted Z.le (map key acc) ->
  Sorted Z.le (map key (fold_left (fun acc i => insert_pos keys i acc) xs acc)).
Proof.
  revert acc. induction xs as [|x xs IH]; intros acc Hs; cbn [fold_left]; [exact Hs|].
  apply IH. apply insert_pos_Sorted. exact Hs.
Qed.
End StableArgsort.

Lemma stable_argsort_ok : argsort_ok stable_argsort.
Proof.
  intros keys. unfold stable_argsort. split.
  - rewrite fold_insert_pos_Permutation. rewrite app_nil_r. reflexivity.
  - apply fold_insert_pos_Sorted. constructor.
Qed.

(** * The frame [cumulative_balance] returns, column by column *)











(** * numpy's kernel on short key arrays

    An array of at most [SMALL_QUICKSORT + 1] keys is never partitioned:
    the kernel goes straight to its insertion sort, which is stable. *)



Section InsertionKernel.
Variable v : list Z.
Variable vi : nat.



End InsertionKernel.

Section SortedRun.
Variable v : list Z.
Variable vi : nat.

Let key (i : nat) : Z := nth i v 0.




End SortedRun.




(** * The stable argsort keeps ties in their order *)



Section StableTies.
Variable A : Type.
Variable by_ : A -> Z.
Variable rows : list A.
Variable k : Z.

Let keys : list Z := map by_ rows.



End StableTies.









(** * The rule based analysis *)

Lemma sum_where (t : string) (rows : list Transaction) :
  sum (map (fun r => if (type r =? t)%string then amount r else 0) rows)
  = sum (map amount (filter (fun r => (type r =? t)%string) rows)).
Proof.
  unfold sum. induction rows as [|r rows IH]; [reflexivity|].
  cbn [map filter fold_right].
  destruct (type r =? t)%string; cbn [map fold_right]; lia.
Qed.

Lemma filter_filter {A} (f g : A -> bool) (l : list A) :
  filter g (filter f l) = filter (fun x => f x && g x) l.
Proof.
  induction l as [|x l IH]; [reflexivity|].
  cbn [filter]. destruct (f x); cbn [filter andb]; [destruct (g x)|]; rewrite IH; reflexivity.
Qed.

Lemma Qltb_lt (x y : Q) : Qltb x y = true <-> (x < y)%Q.
Proof.
  unfold Qltb. rewrite Qlt_alt. destruct (x ?= y)%Q; split; congruence.
Qed.

Lemma Qltb_tenth (saldo tot_in : Z) :
  Qltb (inject_Z saldo) (inject_Z tot_in * (1 # 10))%Q = (10 * saldo <? tot_in).
Proof.
  apply eq_true_iff_eq. rewrite Qltb_lt, Z.ltb_lt.
  unfold Qlt, Qmult, inject_Z. cbn [Qnum Qden]. lia.
Qed.

(** The two lists of [generate_insights] for a frame with rows. *)
Lemma generate_insights_advice argsort today df days_window :
  df <> [] ->
  snd (generate_insights argsort today df days_window)
  = ([severity_advice (snd (compute_summary df)) (fst (fst (compute_summary df)))]
     ++ (if (5 <? List.length (small_outflows df))%nat then [advice_small] else []))
    ++ actions.
Proof.
  intros Hne. destruct df as [|r df]; [congruence|].
  unfold generate_insights.
  destruct (compute_summary (r :: df)) as [[tot_in tot_out] saldo].
  cbn [snd fst]. unfold small_outflows. rewrite <- filter_filter.
  unfold severity_advice. rewrite <- Qltb_tenth.
  set (small := filter (fun r0 => amount r0 <? 50000)
                  (filter (fun r0 => (type r0 =? "Keluar")%string) (r :: df))).
  destruct (5 <? List.length small)%nat;
    destruct (saldo <? 0);
    destruct (Qltb (inject_Z saldo) (inject_Z tot_in * (1 # 10))); reflexivity.
Qed.

Lemma sign_classify (p : Q) :
  (if Qltb 0 p then "naik" else if Qltb p 0 then "turun" else "stabil")
  = classify p.
Proof.
  unfold classify, Qltb. rewrite <- (Qcompare_antisym p 0).
  destruct (p ?= 0)%Q; reflexivity.
Qed.

(** The masked sums of the source are the net flow of the window. *)
Lemma masked_sums_net_flow (df : list Transaction) (lo hi lo' hi' : Z) :
  lo = lo' -> hi = hi' ->
  sum (map (fun r => if (type r =? "Masuk")%string then amount r else 0)
         (filter (fun r => (lo <=? date r) && (date r <=? hi)) df))
  - sum (map (fun r => if (type r =? "Keluar")%string then amount r else 0)
           (filter (fun r => (lo <=? date r) && (date r <=? hi)) df))
  = net_flow df lo' hi'.
Proof.
  intros <- <-. rewrite !sum_where. reflexivity.
Qed.

Lemma generate_insights_trend argsort today df days_window :
  df <> [] ->
  nth_error (fst (generate_insights argsort today df days_window)) 1
  = Some (trend_line days_window
            (net_flow df (today - (days_window - 1)) today)
            (net_flow df (today - 2 * days_window + 1) (today - days_window))).
Proof.
  intros Hne. destruct df as [|r df]; [congruence|].
  unfold generate_insights.
  destruct (compute_summary (r :: df)) as [[tot_in tot_out] saldo].
  rewrite (masked_sums_net_flow (r :: df) _ _
             (today - (days_window - 1)) today eq_refl eq_refl).
  rewrite (masked_sums_net_flow (r :: df) _ _
             (today - 2 * days_window + 1) (today - days_window)) by lia.
  unfold trend_line. fold (percent_change
    (net_flow (r :: df) (today - (days_window - 1)) today)
    (net_flow (r :: df) (today - 2 * days_window + 1) (today - days_window))).
  rewrite sign_classify.
  cbn [fst].
  destruct (net_flow (r :: df) (today - 2 * days_window + 1) (today - days_window) =? 0);
    reflexivity.
Qed.

Lemma percent_change_compare (recent previous : Z) :
  previous <> 0 ->
  (percent_change recent previous ?= 0)%Q = (recent ?= previous).
Proof.
  intros Hp. unfold percent_change, Qcompare, Qdiv, Qmult, Qinv, inject_Z.
  cbn [Qnum Qden].
  destruct (Z.abs previous) as [|a|a] eqn:Ha; [lia| |lia].
  cbn [Qnum Qden]. rewrite (Z.compare_sub recent previous).
  destruct (recent - previous) as [|d|d]; reflexivity.
Qed.

(** C1, as stated, fails on the bounds of the preceding window: with a
    window of 30 days and one inflow of 100 dated [today - 30], the window
    [today - 60, today - 31] of the claim has no net flow, so the claim has
    the line state the recent flow with no comparison; the line emitted
    carries a comparison, a fall of 100 percent. *)
Lemma trend_previous_window_counterexample :
  let today := 20400 in
  let df := [mkTransaction (today - 30) "Gaji" "Penjualan" "Masuk" 100] in
  net_flow df (today - 2 * 30) (today - 30 - 1) = 0 /\
  nth_error (fst (generate_insights Numpy.argsort today df 30)) 1
    = Some (Comparison 30 "turun" (-10000 # 100)) /\
  nth_error (fst (generate_insights Numpy.argsort today df 30)) 1
    <> Some (trend_line 30 (net_flow df (today - (30 - 1)) today)
               (net_flow df (today - 2 * 30) (today - 30 - 1))).
Proof.
  intros today df. split; [|split].
  - vm_compute. reflexivity.
  - vm_compute. reflexivity.
  - vm_compute. discriminate.
Qed.

(** C1, amended: the recent window is [today - (window-1), today] and the
    preceding one, of the same length and next to it, is
    [today - 2*window + 1, today - window].  When the net flow of the
    preceding window is zero the line states the recent net flow with no
    comparison; otherwise it carries the percent change
    [(recent - previous) / |previous| * 100], classified as up when
    positive (recent above previous), down when negative, stable when
    zero. *)
Theorem trend_comparison argsort today df days_window :
  df <> [] ->
  let recent := net_flow df (today - (days_window - 1)) today in
  let previous := net_flow df (today - 2 * days_window + 1) (today - days_window) in
  nth_error (fst (generate_insights argsort today df days_window)) 1
    = Some (if previous =? 0 then NetFlow days_window recent
            else Comparison days_window
                   (classify (percent_change recent previous))
                   (percent_change recent previous)) /\
  (previous <> 0 ->
   classify (percent_change recent previous)
   = match recent ?= previous with
     | Gt => "naik"
     | Lt => "turun"
     | Eq => "stabil"
     end).
Proof.
  intros Hne recent previous. split.
  - apply generate_insights_trend. exact Hne.
  - intros Hp. unfold classify. rewrite percent_change_compare by exact Hp.
    reflexivity.
Qed.

Lemma trend_comparison_witness :
  let df := [mkTransaction 20395 "Gaji" "Penjualan" "Masuk" 300;
             mkTransaction 20370 "Sewa" "Operasional" "Keluar" 100] in
  df <> [] /\
  nth_error (fst (generate_insights stable_argsort 20400 df 30)) 1
    = Some (Comparison 30 "naik" (40000 # 100)).
Proof.
  intros df. assert (Hne : df <> []) by discriminate.
  split; [exact Hne|].
  exact (proj1 (trend_comparison stable_argsort 20400 df 30 Hne)).
Defined.



(** C6: for a frame with rows, the line on many small expenses is among
    the recommendations exactly when more than five outflows have an
    amount below 50000. *)
Theorem small_expense_rule argsort today df days_window :
  df <> [] ->
  In advice_small (snd (generate_insights argsort today df days_window))
  <-> (5 < List.length (small_outflows df))%nat.
Proof.
  intros Hne.
  rewrite (generate_insights_advice argsort today df days_window Hne).
  destruct (5 <? List.length (small_outflows df))%nat eqn:E.
  - apply Nat.ltb_lt in E. split; [intros _; exact E|intros _].
    apply in_or_app. left. apply in_or_app. right. left. reflexivity.
  - apply Nat.ltb_ge in E. split; [|lia].
    intros Hin. exfalso. rewrite app_nil_r in Hin.
    unfold severity_advice in Hin.
    apply in_app_or in Hin. destruct Hin as [[Hin|[]]|Hin].
    + destruct (_ <? 0) in Hin; [discriminate Hin|].
      destruct (_ <? _) in Hin; discriminate Hin.
    + destruct Hin as [Hin|[Hin|[Hin|[]]]]; discriminate Hin.
Qed.

Lemma small_expense_rule_witness :
  let df := map (fun n => mkTransaction 20400 "Jajan" "Lainnya" "Keluar" n)
              [10000; 20000; 30000; 40000; 45000; 49999] in
  df <> [] /\ In advice_small (snd (generate_insights stable_argsort 20400 df 30)).
Proof.
  intros df. assert (Hne : df <> []) by discriminate.
  split; [exact Hne|].
  apply (proj2 (small_expense_rule stable_argsort 20400 df 30 Hne)).
  vm_compute. lia.
Defined.

(** C9, as stated, fails on the empty frame: [generate_insights] returns
    early with an empty second list, which does not end with the three
    action lines. *)
Lemma fixed_actions_empty_counterexample :
  snd (generate_insights Numpy.argsort 20400 [] 30) = [] /\
  ~ (exists advice, snd (generate_insights Numpy.argsort 20400 [] 30) = advice ++ actions).
Proof.
  split; [reflexivity|].
  intros [advice H]. cbn in H. destruct advice; discriminate H.
Qed.

(** C9, amended: for a frame with rows the second list is one or two
    advice lines followed by the three fixed action lines; for the empty
    frame it is empty, next to the single line that says there is no
    data. *)
Theorem fixed_actions_after_advice argsort today df days_window :
  match df with
  | [] => generate_insights argsort today df days_window = ([NoData], [])
  | _ :: _ =>
      exists advice,
        snd (generate_insights argsort today df days_window) = advice ++ actions /\
        (1 <= List.length advice <= 2)%nat
  end.
Proof.
  destruct df as [|r df]; [reflexivity|].
  rewrite (generate_insights_advice argsort today (r :: df) days_window)
    by discriminate.
  eexists. split; [reflexivity|].
  destruct (5 <? _)%nat; cbn; lia.
Qed.

(** * Tabel Transaksi: deleting a row *)

Lemma combine_map_snd {A B} (xs : list A) (ys : list B) :
  List.length xs = List.length ys -> map snd (combine xs ys) = ys.
Proof.
  revert ys. induction xs as [|x xs IH]; intros [|y ys] H; simpl in *;
    try reflexivity; try discriminate.
  f_equal. apply IH. lia.
Qed.

Lemma filter_all {A} (f : A -> bool) (l : list A) :
  (forall x, In x l -> f x = true) -> filter f l = l.
Proof.
  induction l as [|x l IH]; intros H; [reflexivity|].
  cbn [filter]. rewrite (H x (or_introl eq_refl)). f_equal.
  apply IH. intros y Hy. apply H. right. exact Hy.
Qed.



(** The rows kept by the filter of the handler when [sel_index] is the
    position [start + i] of a frame whose index starts at [start]. *)
Lemma filter_index_removes {A} (df : list A) (start i : nat) :
  (i < List.length df)%nat ->
  map snd (filter (fun r => negb (fst r =? Z.of_nat (start + i)))
             (combine (map Z.of_nat (seq start (List.length df))) df))
  = firstn i df ++ skipn (S i) df.
Proof.
  revert start i. induction df as [|x df IH]; intros start i Hi; simpl in Hi; [lia|].
  cbn [List.length seq map combine filter fst].
  destruct i as [|i].
  - rewrite Nat.add_0_r, Z.eqb_refl. cbn [negb firstn skipn app].
    rewrite filter_all.
    + apply combine_map_snd. rewrite length_map, length_seq. reflexivity.
    + intros [j y] Hj. apply in_combine_l in Hj.
      apply in_map_iff in Hj. destruct Hj as [n [<- Hn]]. apply in_seq in Hn.
      cbn [fst]. apply negb_true_iff, Z.eqb_neq. lia.
  - replace (Z.of_nat start =? Z.of_nat (start + S i)) with false
      by (symmetry; apply Z.eqb_neq; lia).
    cbn [negb map snd firstn skipn app]. f_equal.
    replace (start + S i)%nat with (S start + i)%nat by lia.
    apply IH. lia.
Qed.

(** A position inside the frame: that row, and only it, is dropped from
    what is saved. *)
Lemma hapus_transaksi_in_range {A} (df : list A) (i : nat) :
  (i < List.length df)%nat ->
  hapus_transaksi df (Some (Z.of_nat i)) true
  = Ok [SaveData (firstn i df ++ skipn (S i) df);
        StSuccess "Baris dihapus. Reload app untuk melihat perubahan.";
        Rerun].
Proof.
  intros Hi. unfold hapus_transaksi.
  destruct df as [|x df]; [simpl in Hi; lia|].
  cbn [reset_index List.length seq map combine fst index_min index_max
       int_of_float bind number_input].
  change (combine (Z.of_nat 0 :: map Z.of_nat (seq 1 (List.length df))) (x :: df))
    with (combine (map Z.of_nat (seq 0 (List.length (x :: df)))) (x :: df)).
  rewrite <- (filter_index_removes (x :: df) 0 i Hi). reflexivity.
Qed.




(** * Frames: columns read and written *)

Lemma getitem_setitem_eq (df : DataFrame) (c : string) (cells : list value) :
  getitem (setitem df c cells) c = Ok cells.
Proof.
  induction df as [|[c' old] df IH]; cbn [setitem getitem].
  - rewrite String.eqb_refl. reflexivity.
  - destruct (c' =? c)%string eqn:E; cbn [getitem]; rewrite E; [reflexivity|exact IH].
Qed.

Lemma getitem_setitem_ne (df : DataFrame) (c c' : string) (cells : list value) :
  c <> c' -> getitem (setitem df c cells) c' = getitem df c'.
Proof.
  intros Hne. induction df as [|[k old] df IH]; cbn [setitem getitem].
  - apply String.eqb_neq in Hne. rewrite Hne. reflexivity.
  - destruct (k =? c)%string eqn:E; cbn [getitem].
    + apply String.eqb_eq in E. subst k.
      apply String.eqb_neq in Hne. rewrite Hne. reflexivity.
    + rewrite IH. reflexivity.
Qed.

Lemma has_column_getitem (df : DataFrame) (c : string) :
  has_column c df = true <-> exists cells, getitem df c = Ok cells.
Proof.
  unfold has_column, columns.
  induction df as [|[k cells] df IH]; cbn [map existsb getitem fst].
  - split; [discriminate|intros [cells H]; discriminate H].
  - rewrite (String.eqb_sym c k). destruct (k =? c)%string.
    + split; [intros _; eexists; reflexivity|reflexivity].
    + cbn [orb]. exact IH.
Qed.

Lemma has_column_false_getitem (df : DataFrame) (c : string) :
  has_column c df = false ->
  getitem df c = Raise (mkExn "KeyError" ("'" ++ c ++ "'")%string).
Proof.
  unfold has_column, columns.
  induction df as [|[k cells] df IH]; cbn [map existsb getitem fst]; [reflexivity|].
  rewrite (String.eqb_sym c k). destruct (k =? c)%string; [discriminate|].
  cbn [orb]. exact IH.
Qed.

Lemma has_column_setitem_ne (df : DataFrame) (c c' : string) (cells : list value) :
  c <> c' -> has_column c' (setitem df c cells) = has_column c' df.
Proof.
  intros Hne. apply eq_true_iff_eq. rewrite !has_column_getitem.
  rewrite getitem_setitem_ne by exact Hne. reflexivity.
Qed.

(** Replacing a column that is there keeps the column names. *)
Lemma columns_setitem_present (df : DataFrame) (c : string) (old cells : list value) :
  getitem df c = Ok old -> columns (setitem df c cells) = columns df.
Proof.
  unfold columns. induction df as [|[k v] df IH]; cbn [getitem setitem map fst];
    [discriminate|].
  destruct (k =? c)%string; cbn [map fst]; [reflexivity|].
  intros H. rewrite (IH H). reflexivity.
Qed.




(** * Ledger Store: the amounts [load_data] returns *)

Section LoadData.
Variable bytes : Type.
Variable read_csv : bytes -> result DataFrame.
Variable to_datetime_date : list value -> result (list value).
Variable parse_number : string -> option number.

Let normalize := normalize_amount parse_number.
Let load := load_data bytes read_csv to_datetime_date parse_number.



(** The frame after the date column has been set still has the amount
    column it had. *)
Lemma load_data_amount_column file raw df effects :
  read_csv file = Ok raw ->
  load (Some file) = Ok (df, effects) ->
  exists df1,
    getitem df1 "amount" = getitem raw "amount" /\
    has_column "amount" df1 = has_column "amount" raw /\
    ((exists col cells, getitem raw "amount" = Ok col /\
        normalize col = Ok cells /\ df = setitem df1 "amount" cells)
     \/ (has_column "amount" raw = false /\
         df = setitem df1 "amount" (repeat (VInt 0) (nrows df1)))).
Proof.
  intros Hread. unfold load, load_data. rewrite Hread. cbn [bind].
  set (step1 := if has_column "date" raw then _ else _).
  assert (H1 : forall df1, step1 = Ok df1 ->
            getitem df1 "amount" = getitem raw "amount" /\
            has_column "amount" df1 = has_column "amount" raw).
  { intros df1. subst step1.
    destruct (has_column "date" raw).
    - destruct (getitem raw "date") as [col|e]; cbn [bind]; [|discriminate].
      destruct (to_datetime_date col) as [dates|e]; cbn [bind]; [|discriminate].
      intros H. inversion H. split.
      + apply getitem_setitem_ne. discriminate.
      + apply has_column_setitem_ne. discriminate.
    - destruct (iloc_first_column raw) as [col|e]; cbn [bind]; [|discriminate].
      destruct (to_datetime_date col) as [dates|e]; cbn [bind]; [|discriminate].
      intros H. inversion H. split.
      + apply getitem_setitem_ne. discriminate.
      + apply has_column_setitem_ne. discriminate. }
  destruct step1 as [df1|e]; cbn [bind]; [|discriminate].
  destruct (H1 df1 eq_refl) as [Hget Hhas].
  intros H. exists df1. split; [exact Hget|]. split; [exact Hhas|].
  destruct (has_column "amount" df1) eqn:Ea.
  - left. rewrite Hget in H.
    destruct (getitem raw "amount") as [col|e]; cbn [bind] in H; [|discriminate].
    destruct (normalize_amount parse_number col) as [cells|e] eqn:En;
      cbn [bind] in H; [|discriminate].
    inversion H. exists col, cells. repeat split. exact En.
  - right. cbn [bind] in H. inversion H. split; [congruence|reflexivity].
Qed.
End LoadData.




(** * Import: schema check and round trip *)


Lemma select_columns (df : DataFrame) (names : list string) (sel : DataFrame) :
  select df names = Ok sel ->
  columns sel = names /\ (forall c, In c names -> getitem sel c = getitem df c).
Proof.
  revert sel. induction names as [|c names IH]; intros sel H; cbn [select] in H.
  - inversion H. split; [reflexivity|intros c []].
  - destruct (getitem df c) as [cells|e] eqn:Ec; cbn [bind] in H; [|discriminate].
    destruct (select df names) as [tail|e]; cbn [bind] in H; [|discriminate].
    inversion H; subst sel. destruct (IH tail eq_refl) as [Hcols Hget]. split.
    + unfold columns in *. cbn [map fst]. rewrite Hcols. reflexivity.
    + intros c' Hc'. cbn [getitem]. destruct (c =? c')%string eqn:E.
      * apply String.eqb_eq in E. subst c'. symmetry. exact Ec.
      * destruct Hc' as [->|Hc']; [rewrite String.eqb_refl in E; discriminate|].
        apply Hget. exact Hc'.
Qed.


(** The merge by [pd.concat]: a column both frames have holds the cells of
    the first, then those of the second; when the second brings no new
    column the columns are those of the first, in its order. *)
Lemma getitem_map_names (f : string -> list value) (names : list string) (c : string) :
  In c names -> getitem (map (fun c' => (c', f c')) names) c = Ok (f c).
Proof.
  induction names as [|k names IH]; intros Hin; [contradiction|].
  cbn [map getitem]. destruct (k =? c)%string eqn:E.
  - apply String.eqb_eq in E. subst k. reflexivity.
  - destruct Hin as [->|Hin]; [rewrite String.eqb_refl in E; discriminate|].
    apply IH. exact Hin.
Qed.

Lemma getitem_in_columns (df : DataFrame) (c : string) (cells : list value) :
  getitem df c = Ok cells -> In c (columns df).
Proof.
  unfold columns. induction df as [|[k v] df IH]; cbn [getitem map fst]; [discriminate|].
  destruct (k =? c)%string eqn:E.
  - intros _. left. apply String.eqb_eq. exact E.
  - intros H. right. apply IH. exact H.
Qed.

Lemma concat_getitem (df1 df2 : DataFrame) (c : string) (a b : list value) :
  getitem df1 c = Ok a -> getitem df2 c = Ok b ->
  getitem (concat df1 df2) c = Ok (a ++ b).
Proof.
  intros H1 H2. unfold concat.
  rewrite (getitem_map_names
             (fun c => column_or_nan df1 c ++ column_or_nan df2 c)).
  - unfold column_or_nan. rewrite H1, H2. reflexivity.
  - apply in_or_app. left. apply (getitem_in_columns df1 c a H1).
Qed.

Lemma concat_columns (df1 df2 : DataFrame) :
  incl (columns df2) (columns df1) -> columns (concat df1 df2) = columns df1.
Proof.
  intros Hincl. unfold concat, columns at 1. rewrite map_map. cbn [fst].
  rewrite map_id.
  replace (filter (fun c => negb (has_column c df1)) (columns df2)) with (@nil string).
  - apply app_nil_r.
  - symmetry. induction (columns df2) as [|c cs IH]; [reflexivity|].
    cbn [filter].
    assert (Hc : has_column c df1 = true).
    { unfold has_column. apply existsb_exists. exists c.
      split; [apply Hincl; left; reflexivity|apply String.eqb_refl]. }
    rewrite Hc. cbn [negb]. apply IH. intros x Hx. apply Hincl. right. exact Hx.
Qed.

Section UploadFacts.
Variable bytes : Type.
Variable read_csv : bytes -> result DataFrame.
Variable read_excel : bytes -> result DataFrame.
Variable to_excel : DataFrame -> string -> bytes.
Variable to_datetime_date : list value -> result (list value).
Variable parse_number : string -> option number.
Variable list_required : list string.



End UploadFacts.






(** * More on the two aggregation helpers *)


(** X2: only rows typed "Masuk" or "Keluar" count: dropping every other
    row leaves the three totals as they are. *)
Theorem compute_summary_ignores_other_types (df : list Transaction) :
  compute_summary
    (filter (fun r => (type r =? "Masuk")%string || (type r =? "Keluar")%string) df)
  = compute_summary df.
Proof.
  unfold compute_summary. rewrite !filter_filter.
  assert (Hm : filter (fun r => ((type r =? "Masuk")%string || (type r =? "Keluar")%string)
                                && (type r =? "Masuk")%string) df
               = filter (fun r => (type r =? "Masuk")%string) df).
  { apply filter_ext. intros r. destruct (type r =? "Masuk")%string; [reflexivity|].
    cbn [orb]. apply andb_false_r. }
  assert (Hk : filter (fun r => ((type r =? "Masuk")%string || (type r =? "Keluar")%string)
                                && (type r =? "Keluar")%string) df
               = filter (fun r => (type r =? "Keluar")%string) df).
  { apply filter_ext. intros r. destruct (type r =? "Keluar")%string.
    - rewrite orb_true_r. reflexivity.
    - apply andb_false_r. }
  rewrite Hm, Hk. reflexivity.
Qed.

(** X3: the summary does not depend on the order of the rows. *)
Theorem compute_summary_Permutation (df1 df2 : list Transaction) :
  Permutation df1 df2 -> compute_summary df1 = compute_summary df2.
Proof.
  intros H. unfold compute_summary.
  assert (Hf : forall f, sum (map amount (filter f df1)) = sum (map amount (filter f df2))).
  { intros f. apply sum_Permutation. apply Permutation_map.
    clear - H. induction H as [|x l l' _ IH|x y l|l l' l'' _ IH1 _ IH2].
    - reflexivity.
    - cbn [filter]. destruct (f x); [constructor|]; exact IH.
    - cbn [filter]. destruct (f x), (f y); try reflexivity. apply perm_swap.
    - exact (Permutation_trans IH1 IH2). }
  rewrite !Hf. reflexivity.
Qed.

Lemma compute_summary_Permutation_witness :
  let a := mkTransaction 20393 "Penjualan Produk A" "Penjualan" "Masuk" 1500000 in
  let b := mkTransaction 20394 "Beli Bahan" "Operasional" "Keluar" 300000 in
  Permutation [a; b] [b; a] /\ compute_summary [a; b] = compute_summary [b; a].
Proof.
  intros a b. assert (H : Permutation [a; b] [b; a]) by apply perm_swap.
  split; [exact H|]. exact (compute_summary_Permutation [a; b] [b; a] H).
Defined.




(** * More on the deletion of a row *)

(** X5: the button with a position inside the frame saves the frame
    without that row, and reports it: one row fewer, the rows before the
    position where they were, the rows after it one place up. *)
Theorem delete_in_range_removes_row {A : Type} (df : list A) (i : nat) :
  (i < List.length df)%nat ->
  exists df',
    hapus_transaksi df (Some (Z.of_nat i)) true
    = Ok [SaveData df';
          StSuccess "Baris dihapus. Reload app untuk melihat perubahan.";
          Rerun] /\
    S (List.length df') = List.length df /\
    (forall j, (j < i)%nat -> nth_error df' j = nth_error df j) /\
    (forall j, (i <= j)%nat -> nth_error df' j = nth_error df (S j)).
Proof.
  intros Hi. exists (firstn i df ++ skipn (S i) df).
  split; [apply hapus_transaksi_in_range; exact Hi|].
  assert (Hlen : List.length (firstn i df) = i)
    by (rewrite length_firstn; lia).
  split; [|split].
  - rewrite length_app, Hlen, length_skipn. lia.
  - intros j Hj. rewrite nth_error_app1 by lia.
    rewrite nth_error_firstn.
    destruct (Nat.ltb_spec j i); [reflexivity|lia].
  - intros j Hj. rewrite nth_error_app2 by lia. rewrite Hlen.
    rewrite nth_error_skipn. f_equal. lia.
Qed.

Lemma delete_in_range_removes_row_witness :
  let a := mkTransaction 20393 "Penjualan Produk A" "Penjualan" "Masuk" 1500000 in
  let b := mkTransaction 20394 "Beli Bahan" "Operasional" "Keluar" 300000 in
  let c := mkTransaction 20395 "Project X" "Proyek" "Masuk" 2500000 in
  (1 < List.length [a; b; c])%nat /\
  hapus_transaksi [a; b; c] (Some 1) true
  = Ok [SaveData [a; c];
        StSuccess "Baris dihapus. Reload app untuk melihat perubahan.";
        Rerun] /\
  exists df',
    hapus_transaksi [a; b; c] (Some 1) true
    = Ok [SaveData df';
          StSuccess "Baris dihapus. Reload app untuk melihat perubahan.";
          Rerun] /\
    S (List.length df') = 3%nat.
Proof.
  intros a b c. assert (H : (1 < List.length [a; b; c])%nat) by (cbn; lia).
  split; [exact H|]. split; [reflexivity|].
  destruct (delete_in_range_removes_row [a; b; c] 1 H) as [df' [Hdel [Hlen _]]].
  exists df'. split; [exact Hdel|exact Hlen].
Defined.

Lemma fold_max_indices (m s : nat) :
  fold_left Z.max (map Z.of_nat (seq (S s) m)) (Z.of_nat s) = Z.of_nat (s + m).
Proof.
  revert s. induction m as [|m IH]; intros s.
  - cbn. f_equal. lia.
  - cbn [seq map fold_left]. rewrite Z.max_r by lia.
    rewrite IH. f_equal. lia.
Qed.

Lemma firstn_pred_removelast {A} (l : list A) :
  firstn (List.length l - 1) l ++ skipn (S (List.length l - 1)) l = removelast l.
Proof.
  destruct l as [|x l]; [reflexivity|].
  replace (S (List.length (x :: l) - 1)) with (List.length (x :: l)) by (cbn; lia).
  rewrite skipn_all, app_nil_r.
  rewrite removelast_firstn_len. f_equal. cbn. lia.
Qed.

(** X6: with the number input left as it starts, the button deletes the
    last row of the frame. *)
Theorem hapus_transaksi_default_last {A : Type} (df : list A) :
  df <> [] ->
  hapus_transaksi df None true
  = Ok [SaveData (removelast df);
        StSuccess "Baris dihapus. Reload app untuk melihat perubahan.";
        Rerun].
Proof.
  intros Hne. destruct df as [|x df]; [congruence|].
  assert (Hi : (List.length (x :: df) - 1 < List.length (x :: df))%nat) by (cbn; lia).
  rewrite <- firstn_pred_removelast.
  rewrite <- (hapus_transaksi_in_range (x :: df) _ Hi).
  unfold hapus_transaksi.
  assert (Hmax : index_max (map fst (reset_index (x :: df)))
                 = Some (Z.of_nat (List.length (x :: df) - 1))).
  { unfold reset_index. cbn [List.length seq map combine fst index_max].
    f_equal.
    replace (map fst (combine (map Z.of_nat (seq 1 (List.length df))) df))
      with (map Z.of_nat (seq 1 (List.length df))).
    - rewrite (fold_max_indices (List.length df) 0). f_equal. lia.
    - clear. generalize 1%nat. induction df as [|y df IH]; intros s; [reflexivity|].
      cbn [List.length seq map combine fst]. f_equal. apply IH. }
  assert (Hmin : exists lo, index_min (map fst (reset_index (x :: df))) = Some lo)
    by (eexists; reflexivity).
  destruct Hmin as [lo Hmin]. rewrite Hmin, Hmax. reflexivity.
Qed.

Lemma hapus_transaksi_default_last_witness :
  let a := mkTransaction 20393 "Penjualan Produk A" "Penjualan" "Masuk" 1500000 in
  let b := mkTransaction 20394 "Beli Bahan" "Operasional" "Keluar" 300000 in
  [a; b] <> [] /\
  hapus_transaksi [a; b] None true
  = Ok [SaveData [a];
        StSuccess "Baris dihapus. Reload app untuk melihat perubahan.";
        Rerun].
Proof.
  intros a b. assert (H : [a; b] <> []) by discriminate.
  split; [exact H|]. exact (hapus_transaksi_default_last [a; b] H).
Defined.

(** * More on [load_data] *)


Section LoadDataEdges.
Variable bytes : Type.
Variable read_csv : bytes -> result DataFrame.
Variable to_datetime_date : list value -> result (list value).
Variable parse_number : string -> option number.

(** X7: a date column that [pd.to_datetime] rejects makes [load_data]
    raise that very exception, whether the column is the one named date or,
    for want of it, the first one. *)
Theorem load_data_bad_date (file : bytes) (raw : DataFrame)
    (col : list value) (e : exn) :
  read_csv file = Ok raw ->
  (if has_column "date" raw then getitem raw "date" else iloc_first_column raw)
    = Ok col ->
  to_datetime_date col = Raise e ->
  load_data bytes read_csv to_datetime_date parse_number (Some file) = Raise e.
Proof.
  intros Hread Hcol Hbad. unfold load_data. rewrite Hread. cbn [bind].
  destruct (has_column "date" raw); rewrite Hcol; cbn [bind];
    rewrite Hbad; reflexivity.
Qed.


(** X9: a store without a date column has its first column read as the
    dates; a store without an amount column is loaded with every amount
    0. *)
Theorem load_data_missing_columns (file : bytes) (raw df : DataFrame)
    (effects : list (Effect DataFrame)) :
  read_csv file = Ok raw ->
  load_data bytes read_csv to_datetime_date parse_number (Some file)
    = Ok (df, effects) ->
  (has_column "date" raw = false ->
   exists first dates,
     iloc_first_column raw = Ok first /\
     to_datetime_date first = Ok dates /\
     getitem df "date" = Ok dates) /\
  (has_column "amount" raw = false ->
   exists cells,
     getitem df "amount" = Ok cells /\ Forall (fun c => c = VInt 0) cells).
Proof.
  intros Hread Hload. split.
  - intros Hno. unfold load_data in Hload. rewrite Hread in Hload.
    cbn [bind] in Hload. rewrite Hno in Hload.
    destruct (iloc_first_column raw) as [first|e]; cbn [bind] in Hload; [|discriminate].
    destruct (to_datetime_date first) as [dates|e] eqn:Edates;
      cbn [bind] in Hload; [|discriminate].
    exists first, dates. split; [reflexivity|]. split; [exact Edates|].
    set (df1 := setitem raw "date" dates) in *.
    assert (Hd : getitem df1 "date" = Ok dates) by apply getitem_setitem_eq.
    destruct (has_column "amount" df1).
    + destruct (getitem df1 "amount") as [a|e]; cbn [bind] in Hload; [|discriminate].
      destruct (normalize_amount parse_number a) as [cells|e];
        cbn [bind] in Hload; [|discriminate].
      inversion Hload. rewrite getitem_setitem_ne by discriminate. exact Hd.
    + cbn [bind] in Hload. inversion Hload.
      rewrite getitem_setitem_ne by discriminate. exact Hd.
  - intros Hno.
    destruct (load_data_amount_column bytes read_csv to_datetime_date parse_number
                file raw df effects Hread Hload)
      as [df1 [_ [_ [[col [cells [Hcol _]]]|[_ ->]]]]].
    + apply has_column_false_getitem in Hno. rewrite Hcol in Hno. discriminate Hno.
    + eexists. split; [apply getitem_setitem_eq|].
      apply Forall_forall. intros c Hc. apply repeat_spec in Hc. exact Hc.
Qed.

(** X10: [load_data] touches the date and the amount column only: every
    other column comes out with the cells the reader gave it. *)
Theorem load_data_other_columns (file : bytes) (raw df : DataFrame)
    (effects : list (Effect DataFrame)) (c : string) :
  read_csv file = Ok raw ->
  load_data bytes read_csv to_datetime_date parse_number (Some file)
    = Ok (df, effects) ->
  c <> "date" -> c <> "amount" ->
  getitem df c = getitem raw c.
Proof.
  intros Hread Hload Hd Ha. unfold load_data in Hload. rewrite Hread in Hload.
  cbn [bind] in Hload.
  assert (H1 : forall df1,
            (if has_column "date" raw
             then col <- getitem raw "date" ;; dates <- to_datetime_date col ;;
                  Ok (setitem raw "date" dates)
             else col <- iloc_first_column raw ;; dates <- to_datetime_date col ;;
                  Ok (setitem raw "date" dates)) = Ok df1 ->
            getitem df1 c = getitem raw c).
  { intros df1. destruct (has_column "date" raw).
    - destruct (getitem raw "date") as [col|e]; cbn [bind]; [|discriminate].
      destruct (to_datetime_date col) as [dates|e]; cbn [bind]; [|discriminate].
      intros H. inversion H. apply getitem_setitem_ne. congruence.
    - destruct (iloc_first_column raw) as [col|e]; cbn [bind]; [|discriminate].
      destruct (to_datetime_date col) as [dates|e]; cbn [bind]; [|discriminate].
      intros H. inversion H. apply getitem_setitem_ne. congruence. }
  destruct (if has_column "date" raw then _ else _) as [df1|e];
    cbn [bind] in Hload; [|discriminate].
  rewrite <- (H1 df1 eq_refl).
  destruct (has_column "amount" df1).
  - destruct (getitem df1 "amount") as [a|e]; cbn [bind] in Hload; [|discriminate].
    destruct (normalize_amount parse_number a) as [cells|e];
      cbn [bind] in Hload; [|discriminate].
    inversion Hload. apply getitem_setitem_ne. congruence.
  - cbn [bind] in Hload. inversion Hload. apply getitem_setitem_ne. congruence.
Qed.

(** X11: amounts that went through the normalisation once go through it
    again unchanged. *)
Theorem normalize_amount_idempotent (col cells : list value) :
  normalize_amount parse_number col = Ok cells ->
  normalize_amount parse_number cells = Ok cells.
Proof.
  unfold normalize_amount. intros H.
  destruct (mapM _ col) as [ints|e]; cbn [bind] in H; [|discriminate].
  inversion H. clear.
  assert (Hm : mapM (fun v => astype_int (fillna_0 (to_numeric_coerce parse_number v)))
                 (map VInt ints) = Ok ints).
  { induction ints as [|z ints IH]; [reflexivity|].
    cbn [map mapM to_numeric_coerce fillna_0 astype_int bind]. rewrite IH.
    reflexivity. }
  rewrite Hm. reflexivity.
Qed.
End LoadDataEdges.

Lemma load_data_bad_date_witness :
  let raw : DataFrame :=
    [ ("date", [VStr "2025-11-01"; VStr "kemarin"]);
      ("amount", [VInt 1000; VInt 2000]) ] in
  Sample.read raw = Ok raw /\
  Sample.to_datetime_date [VStr "2025-11-01"; VStr "kemarin"]
    = Raise (mkExn "ValueError"
               "Unknown datetime string format, unable to parse: kemarin") /\
  load_data DataFrame Sample.read Sample.to_datetime_date Sample.parse_number
    (Some raw)
  = Raise (mkExn "ValueError"
             "Unknown datetime string format, unable to parse: kemarin").
Proof.
  intros raw. split; [reflexivity|]. split; [reflexivity|].
  exact (load_data_bad_date DataFrame Sample.read Sample.to_datetime_date
           Sample.parse_number raw raw _ _ eq_refl eq_refl eq_refl).
Defined.


Lemma load_data_missing_columns_witness :
  let raw : DataFrame :=
    [ ("tanggal", [VStr "2025-11-01"; VStr "2025-11-02"]);
      ("keterangan", [VStr "Gaji"; VStr "Makan"]) ] in
  Sample.read raw = Ok raw /\
  exists df,
    load_data DataFrame Sample.read Sample.to_datetime_date Sample.parse_number
      (Some raw) = Ok (df, []) /\
    getitem df "date" = Ok [VDate 20393; VDate 20394] /\
    exists cells, getitem df "amount" = Ok cells /\ Forall (fun c => c = VInt 0) cells.
Proof.
  intros raw. split; [reflexivity|].
  eexists. split; [vm_compute; reflexivity|].
  match goal with
  | |- getitem ?df _ = _ /\ _ =>
      destruct (load_data_missing_columns DataFrame Sample.read
                  Sample.to_datetime_date Sample.parse_number raw raw df []
                  eq_refl eq_refl) as [Hd Ha]
  end.
  split.
  - destruct (Hd eq_refl) as [first [dates [Hf [Hp Hg]]]].
    rewrite Hg. inversion Hf; subst first.
    vm_compute in Hp. inversion Hp. reflexivity.
  - exact (Ha eq_refl).
Defined.

Lemma load_data_other_columns_witness :
  let raw : DataFrame :=
    [ ("date", [VStr "2025-11-01"]);
      ("description", [VStr "Gaji"]);
      ("amount", [VStr "1000"]) ] in
  exists df,
    load_data DataFrame Sample.read Sample.to_datetime_date Sample.parse_number
      (Some raw) = Ok (df, []) /\
    "description" <> "date" /\ "description" <> "amount" /\
    getitem df "description" = Ok [VStr "Gaji"].
Proof.
  intros raw. eexists. split; [vm_compute; reflexivity|].
  assert (H1 : "description" <> "date") by discriminate.
  assert (H2 : "description" <> "amount") by discriminate.
  split; [exact H1|]. split; [exact H2|].
  match goal with
  | |- getitem ?df _ = _ =>
      rewrite (load_data_other_columns DataFrame Sample.read
                 Sample.to_datetime_date Sample.parse_number raw raw df []
                 "description" eq_refl eq_refl H1 H2)
  end.
  reflexivity.
Defined.

Lemma normalize_amount_idempotent_witness :
  normalize_amount Sample.parse_number [VStr "abc"; VStr "-5"; VFloat (7 # 2)]
    = Ok [VInt 0; VInt (-5); VInt 3] /\
  normalize_amount Sample.parse_number [VInt 0; VInt (-5); VInt 3]
    = Ok [VInt 0; VInt (-5); VInt 3].
Proof.
  assert (H : normalize_amount Sample.parse_number
                [VStr "abc"; VStr "-5"; VFloat (7 # 2)]
              = Ok [VInt 0; VInt (-5); VInt 3]) by reflexivity.
  split; [exact H|].
  exact (normalize_amount_idempotent Sample.parse_number _ _ H).
Defined.

(** * The columns the script makes sure of *)

Section EnsureColumns.
Let fill (c : string) : value :=
  if (c =? "amount")%string then VInt 0 else VStr "".

Let step (df : DataFrame) (c : string) : DataFrame :=
  if has_column c df then df else setitem df c (repeat (fill c) (nrows df)).

Lemma step_getitem df k c cells :
  getitem df c = Ok cells -> getitem (step df k) c = Ok cells.
Proof.
  intros H. unfold step. destruct (has_column k df) eqn:Ek; [exact H|].
  rewrite getitem_setitem_ne; [exact H|].
  intros ->. apply has_column_false_getitem in Ek. rewrite H in Ek. discriminate Ek.
Qed.

Lemma step_nrows df k : nrows (step df k) = nrows df.
Proof.
  unfold step. destruct (has_column k df) eqn:Ek; [reflexivity|].
  destruct df as [|[c0 cells0] rest].
  - cbn. reflexivity.
  - cbn [setitem]. destruct (c0 =? k)%string eqn:E; [|reflexivity].
    apply String.eqb_eq in E. subst c0.
    unfold has_column in Ek. cbn in Ek. rewrite String.eqb_refl in Ek. discriminate Ek.
Qed.

Lemma step_absent df k c :
  k <> c -> has_column c (step df k) = has_column c df.
Proof.
  intros Hne. unfold step. destruct (has_column k df); [reflexivity|].
  apply has_column_setitem_ne. exact Hne.
Qed.

Lemma fold_step_getitem names df c cells :
  getitem df c = Ok cells -> getitem (fold_left step names df) c = Ok cells.
Proof.
  revert df. induction names as [|k names IH]; intros df H; [exact H|].
  cbn [fold_left]. apply IH. apply step_getitem. exact H.
Qed.

Lemma fold_step_filled names df c :
  In c names -> has_column c df = false ->
  getitem (fold_left step names df) c = Ok (repeat (fill c) (nrows df)).
Proof.
  revert df. induction names as [|k names IH]; intros df Hin Hno; [contradiction|].
  cbn [fold_left]. destruct (String.eqb_spec k c) as [->|Hne].
  - apply fold_step_getitem. unfold step. rewrite Hno. apply getitem_setitem_eq.
  - destruct Hin as [->|Hin]; [congruence|].
    rewrite <- (step_nrows df k). apply IH; [exact Hin|].
    rewrite step_absent by exact Hne. exact Hno.
Qed.

Lemma fold_step_present names df :
  (forall c, In c names -> has_column c df = true) -> fold_left step names df = df.
Proof.
  revert df. induction names as [|k names IH]; intros df H; [reflexivity|].
  cbn [fold_left]. unfold step at 2. rewrite (H k (or_introl eq_refl)).
  apply IH. intros c Hc. apply H. right. exact Hc.
Qed.

Lemma fold_step_has names df c :
  In c names -> has_column c (fold_left step names df) = true.
Proof.
  intros Hin. destruct (has_column c df) eqn:E.
  - apply has_column_getitem in E. destruct E as [cells E].
    apply has_column_getitem. exists cells. apply fold_step_getitem. exact E.
  - apply has_column_getitem. eexists. apply fold_step_filled; assumption.
Qed.

(** X12: after the loop the five expected columns are there; a column the
    frame had keeps its cells; a missing text column holds the empty
    string in every row and a missing amount column 0; running the loop
    again changes nothing. *)
Theorem ensure_columns_complete (df : DataFrame) :
  (forall c, In c expected_cols -> has_column c (ensure_columns df) = true) /\
  (forall c cells,
     getitem df c = Ok cells -> getitem (ensure_columns df) c = Ok cells) /\
  (forall c,
     In c expected_cols -> has_column c df = false ->
     getitem (ensure_columns df) c
     = Ok (repeat (if (c =? "amount")%string then VInt 0 else VStr "") (nrows df))) /\
  ensure_columns (ensure_columns df) = ensure_columns df.
Proof.
  change (ensure_columns df) with (fold_left step expected_cols df).
  change (ensure_columns (fold_left step expected_cols df))
    with (fold_left step expected_cols (fold_left step expected_cols df)).
  split; [|split; [|split]].
  - intros c Hc. apply fold_step_has. exact Hc.
  - intros c cells H. apply fold_step_getitem. exact H.
  - intros c Hc Hno. apply (fold_step_filled expected_cols df c Hc Hno).
  - apply fold_step_present. intros c Hc. apply fold_step_has. exact Hc.
Qed.
End EnsureColumns.

(** * The filters of the sidebar *)

Lemma filter_nil_of_none {A} (f : A -> bool) (l : list A) :
  (forall x, In x l -> f x = false) -> filter f l = [].
Proof.
  induction l as [|x l IH]; intros H; [reflexivity|].
  cbn [filter]. rewrite (H x (or_introl eq_refl)).
  apply IH. intros y Hy. apply H. right. exact Hy.
Qed.

(** X13: the three filters together keep, in the order of the frame,
    exactly the rows dated from [min_date] to [max_date] whose type is
    among the selected ones, if any is selected, and whose category is
    among the selected ones, if any is selected. *)
Theorem apply_filters_spec (df : list Transaction) (min_date max_date : Z)
    (sel_types sel_cats : list string) :
  apply_filters df min_date max_date sel_types sel_cats
  = filter (fun r =>
              ((min_date <=? date r) && (date r <=? max_date))
              && (match sel_types with [] => true | _ :: _ => isin sel_types (type r) end)
              && (match sel_cats with [] => true | _ :: _ => isin sel_cats (category r) end))
      df.
Proof.
  unfold apply_filters. destruct df as [|r0 df]; [reflexivity|].
  set (l := r0 :: df).
  destruct sel_types as [|t ts]; destruct sel_cats as [|c cs];
    rewrite ?filter_filter; apply filter_ext; intros r;
    rewrite ?andb_true_r, ?andb_assoc; reflexivity.
Qed.

(** X14: when no row of the ledger is dated within the two dates of the
    sidebar, the metrics of the dashboard are those of the whole ledger,
    not zeros. *)
Theorem dashboard_metrics_fallback (df : list Transaction) (min_date max_date : Z)
    (sel_types sel_cats : list string) :
  (forall r, In r df -> date r < min_date \/ max_date < date r) ->
  dashboard_metrics df min_date max_date sel_types sel_cats = compute_summary df.
Proof.
  intros Hout. unfold dashboard_metrics, apply_filters.
  destruct df as [|r0 df]; [reflexivity|]. cbv zeta.
  rewrite (filter_nil_of_none
             (fun r => (min_date <=? date r) && (date r <=? max_date)) (r0 :: df)).
  - destruct sel_types, sel_cats; reflexivity.
  - intros r Hr. specialize (Hout r Hr).
    apply andb_false_iff.
    destruct Hout; [left; apply Z.leb_gt|right; apply Z.leb_gt]; lia.
Qed.

Lemma dashboard_metrics_fallback_witness :
  let df := [mkTransaction 20393 "Penjualan Produk A" "Penjualan" "Masuk" 1500000;
             mkTransaction 20394 "Beli Bahan" "Operasional" "Keluar" 300000] in
  (forall r, In r df -> date r < 20500 \/ 20530 < date r) /\
  dashboard_metrics df 20500 20530 ["Masuk"; "Keluar"] [] = (1500000, 300000, 1200000).
Proof.
  intros df.
  assert (H : forall r, In r df -> date r < 20500 \/ 20530 < date r).
  { intros r [<-|[<-|[]]]; left; cbn; lia. }
  split; [exact H|].
  exact (dashboard_metrics_fallback df 20500 20530 ["Masuk"; "Keluar"] [] H).
Defined.

(** * Input Transaksi and the categories *)


(** X16: the category select box is never empty: it lists the
    categories registered for the type, in their order, and when there is
    none it offers "Lainnya", whatever the registry says of it. *)
Theorem category_options_nonempty (categories : list (string * string))
    (ttype : string) :
  category_options categories ttype <> [] /\
  (forall k, In k (category_options categories ttype) ->
     In (k, ttype) categories \/
     (k = "Lainnya" /\ forall k', ~ In (k', ttype) categories)).
Proof.
  unfold category_options.
  destruct (map fst (filter (fun kv => (snd kv =? ttype)%string) categories))
    as [|k0 ks] eqn:E.
  - split; [discriminate|]. intros k [<-|[]]. right. split; [reflexivity|].
    intros k' Hin.
    assert (Hf : In (k', ttype) (filter (fun kv => (snd kv =? ttype)%string) categories)).
    { apply filter_In. split; [exact Hin|]. cbn. apply String.eqb_refl. }
    apply (in_map fst) in Hf. rewrite E in Hf. exact Hf.
  - split; [discriminate|]. intros k Hk. left. rewrite <- E in Hk.
    apply in_map_iff in Hk. destruct Hk as [[k1 v1] [<- Hin]].
    apply filter_In in Hin. destruct Hin as [Hin Hv]. cbn in Hv.
    apply String.eqb_eq in Hv. subst v1. exact Hin.
Qed.

Lemma dict_get_set_eq d k v : dict_get (dict_set d k v) k = Some v.
Proof.
  induction d as [|[k' v'] d IH]; cbn [dict_set dict_get].
  - rewrite String.eqb_refl. reflexivity.
  - destruct (k' =? k)%string eqn:E; cbn [dict_get]; rewrite E; [reflexivity|exact IH].
Qed.

Lemma dict_get_set_ne d k v k0 : k0 <> k -> dict_get (dict_set d k v) k0 = dict_get d k0.
Proof.
  intros Hne. induction d as [|[k' v'] d IH]; cbn [dict_set dict_get].
  - replace (k =? k0)%string with false; [reflexivity|].
    symmetry. apply String.eqb_neq. congruence.
  - destruct (k' =? k)%string eqn:E; cbn [dict_get].
    + apply String.eqb_eq in E. subst k'.
      replace (k =? k0)%string with false by (symmetry; apply String.eqb_neq; congruence).
      reflexivity.
    + rewrite IH. reflexivity.
Qed.

Lemma dict_set_keys d k v :
  map fst (dict_set d k v)
  = if existsb (String.eqb k) (map fst d) then map fst d else map fst d ++ [k].
Proof.
  induction d as [|[k' v'] d IH]; cbn [dict_set map fst existsb]; [reflexivity|].
  rewrite (String.eqb_sym k k'). destruct (k' =? k)%string; cbn [map fst orb].
  - reflexivity.
  - rewrite IH. destruct (existsb (String.eqb k) (map fst d)); reflexivity.
Qed.

(** X17: "Tambah kategori" does nothing when the name is blank once
    stripped.  Otherwise the stripped name is registered with the new
    type, an existing category of that name changing its type where it
    stands, no other category changes, and no name comes to be listed
    twice. *)
Theorem tambah_kategori_spec (strip : string -> string)
    (categories : list (string * string)) (new_name new_type : string) :
  let '(categories', effects) :=
    tambah_kategori strip categories new_name new_type in
  if (strip new_name =? "")%string
  then categories' = categories /\ effects = []
  else dict_get categories' (strip new_name) = Some new_type /\
       (forall k, k <> strip new_name -> dict_get categories' k = dict_get categories k) /\
       (NoDup (map fst categories) -> NoDup (map fst categories')) /\
       effects = [StSuccess ("Kategori '" ++ new_name ++ "' ditambahkan.")%string].
Proof.
  unfold tambah_kategori. destruct (strip new_name) as [|a s] eqn:E.
  - cbn. split; reflexivity.
  - change (String a s =? "")%string with false. cbv iota.
    split; [apply dict_get_set_eq|]. split; [|split; [|reflexivity]].
    + intros k Hk. apply dict_get_set_ne. exact Hk.
    + intros Hnd. rewrite dict_set_keys.
      destruct (existsb (String.eqb (String a s)) (map fst categories)) eqn:Ex;
        [exact Hnd|].
      apply NoDup_app; [exact Hnd|repeat constructor; intros []|].
      intros x Hx Hx'. destruct Hx' as [Heq|[]]. subst x.
      assert (Ht : existsb (String.eqb (String a s)) (map fst categories) = true).
      { apply existsb_exists. exists (String a s).
        split; [exact Hx|apply String.eqb_refl]. }
      rewrite Ht in Ex. discriminate Ex.
Qed.

Lemma dict_get_none_notin d k : ~ In k (map fst d) -> dict_get d k = None.
Proof.
  induction d as [|[k' v'] d IH]; intros H; [reflexivity|].
  cbn [dict_get]. destruct (String.eqb_spec k' k) as [->|Hne].
  - exfalso. apply H. left. reflexivity.
  - apply IH. intros Hin. apply H. right. exact Hin.
Qed.

(** X18: "Hapus kategori" takes the chosen category out of the registry
    and leaves every other one as it is. *)
Theorem hapus_kategori_spec (categories : list (string * string)) (rem : string) :
  NoDup (map fst categories) ->
  let categories' := fst (hapus_kategori categories rem) in
  dict_get categories' rem = None /\
  (forall k, k <> rem -> dict_get categories' k = dict_get categories k) /\
  NoDup (map fst categories').
Proof.
  intros Hnd. cbn [hapus_kategori fst].
  induction categories as [|[k' v'] d IH]; cbn [dict_pop].
  - split; [reflexivity|]. split; [reflexivity|constructor].
  - cbn [map fst] in Hnd. inversion Hnd as [|? ? Hnotin Hnd']; subst.
    destruct (String.eqb_spec k' rem) as [->|Hne].
    + split; [apply dict_get_none_notin; exact Hnotin|]. split; [|exact Hnd'].
      intros k Hk. cbn [dict_get].
      replace (rem =? k)%string with false; [reflexivity|].
      symmetry. apply String.eqb_neq. congruence.
    + destruct (IH Hnd') as [Hget [Hother Hnd'']].
      split; [|split].
      * cbn [dict_get]. replace (k' =? rem)%string with false; [exact Hget|].
        symmetry. apply String.eqb_neq. exact Hne.
      * intros k Hk. cbn [dict_get]. destruct (k' =? k)%string; [reflexivity|].
        apply Hother. exact Hk.
      * cbn [map fst]. constructor; [|exact Hnd''].
        intros Hin. apply Hnotin. clear - Hin.
        induction d as [|[k1 v1] d IHd]; [contradiction|].
        cbn [dict_pop] in Hin. destruct (k1 =? rem)%string.
        -- right. exact Hin.
        -- destruct Hin as [<-|Hin]; [left; reflexivity|right; apply IHd; exact Hin].
Qed.

Lemma hapus_kategori_spec_witness :
  NoDup (map fst default_categories) /\
  dict_get (fst (hapus_kategori default_categories "Transport")) "Transport" = None /\
  category_options (fst (hapus_kategori default_categories "Transport")) "Keluar"
  = ["Operasional"; "Bahan baku"; "Lainnya"].
Proof.
  assert (Hnd : NoDup (map fst default_categories)).
  { cbn. repeat (constructor; [intros H; cbn in H;
      repeat (destruct H as [H|H]; [discriminate H|]); exact H|]). constructor. }
  split; [exact Hnd|]. split; [|reflexivity].
  exact (proj1 (hapus_kategori_spec default_categories "Transport" Hnd)).
Defined.

(** * Sorting in descending order *)

Lemma map_flip_seq (n : nat) :
  map (fun i => (n - 1 - i)%nat) (seq 0 n) = rev (seq 0 n).
Proof.
  induction n as [|n IH]; [reflexivity|].
  rewrite seq_S at 2. rewrite rev_app_distr. cbn [rev app Nat.add].
  cbn [seq map]. f_equal; [lia|].
  rewrite <- seq_shift, map_map. rewrite <- IH.
  apply map_ext. intros i. lia.
Qed.

Lemma StronglySorted_snoc {A} (R : A -> A -> Prop) (l : list A) (x : A) :
  StronglySorted R l -> Forall (fun y => R y x) l -> StronglySorted R (l ++ [x]).
Proof.
  induction 1 as [|y l Hs IH Hy]; intros Hall; cbn [app].
  - constructor; constructor.
  - inversion Hall as [|? ? Hyx Hall']; subst. constructor.
    + apply IH. exact Hall'.
    + apply Forall_app. split; [exact Hy|]. constructor; [exact Hyx|constructor].
Qed.

Lemma StronglySorted_rev_ge (l : list Z) :
  StronglySorted Z.le l -> StronglySorted Z.ge (rev l).
Proof.
  induction 1 as [|x l Hs IH Hx]; cbn [rev]; [constructor|].
  apply StronglySorted_snoc; [exact IH|].
  apply Forall_forall. intros y Hy. apply in_rev in Hy.
  pose proof (proj1 (Forall_forall _ _) Hx y Hy). lia.
Qed.

(** Over a kernel that meets the contract of [argsort], the descending
    indexer is a permutation of the positions that lists the keys in
    descending order. *)
Lemma argsort_descending_ok (argsort : list Z -> list nat) (keys : list Z) :
  argsort_ok argsort ->
  Permutation (argsort_descending argsort keys) (seq 0 (List.length keys)) /\
  StronglySorted Z.ge
    (map (fun i => nth i keys 0) (argsort_descending argsort keys)).
Proof.
  intros Hok. unfold argsort_descending.
  destruct (Hok (rev keys)) as [Hperm Hsorted]. rewrite length_rev in Hperm.
  set (n := List.length keys) in *.
  set (p := argsort (rev keys)) in *.
  split.
  - rewrite <- Permutation_rev.
    rewrite (Permutation_map (fun i => (n - 1 - i)%nat) Hperm).
    rewrite map_flip_seq. symmetry. apply Permutation_rev.
  - rewrite map_rev, map_map. apply StronglySorted_rev_ge.
    apply Sorted_StronglySorted in Hsorted; [|intros a b c; apply Z.le_trans].
    replace (map (fun i => nth (n - 1 - i) keys 0) p)
      with (map (fun i => nth i (rev keys) 0) p); [exact Hsorted|].
    apply map_ext_in. intros i Hi.
    apply (Permutation_in _ Hperm) in Hi. apply in_seq in Hi.
    rewrite rev_nth by (fold n; lia). fold n. f_equal. lia.
Qed.

Lemma StronglySorted_app_cross {A} (R : A -> A -> Prop) (l1 l2 : list A) :
  StronglySorted R (l1 ++ l2) ->
  forall x y, In x l1 -> In y l2 -> R x y.
Proof.
  induction l1 as [|a l1 IH]; intros Hs x y Hx Hy; [contradiction|].
  cbn [app] in Hs. inversion Hs as [|? ? Hs' Hall]; subst.
  destruct Hx as [->|Hx].
  - apply (proj1 (Forall_forall _ _) Hall). apply in_or_app. right. exact Hy.
  - apply (IH Hs' x y Hx Hy).
Qed.

(** X19: over a kernel that meets the contract of [argsort], the table
    "5 Transaksi Terakhir" shows five rows of the ledger, or all of them
    when there are fewer, most recent first, and no row left out is dated
    after a row shown. *)
Theorem transaksi_terakhir_most_recent (argsort : list Z -> list nat)
    (df : list Transaction) :
  argsort_ok argsort ->
  let shown := transaksi_terakhir argsort df in
  List.length shown = Nat.min 5 (List.length df) /\
  StronglySorted Z.ge (map date shown) /\
  exists rest,
    Permutation (shown ++ rest) df /\
    forall x y, In x shown -> In y rest -> date y <= date x.
Proof.
  intros Hok shown.
  destruct (argsort_descending_ok argsort (map date df) Hok) as [Hperm Hsorted].
  rewrite length_map in Hperm.
  set (idx := argsort_descending argsort (map date df)) in *.
  assert (Hrows : Permutation (take idx df) df) by (apply take_Permutation; exact Hperm).
  assert (Hdates : StronglySorted Z.ge (map date (take idx df))).
  { rewrite (take_in_range date 0); [exact Hsorted|].
    apply Permutation_seq_range. exact Hperm. }
  assert (Hsplit : take idx df = shown ++ skipn 5 (take idx df)).
  { unfold shown, transaksi_terakhir. fold idx. symmetry. apply firstn_skipn. }
  split; [|split].
  - unfold shown, transaksi_terakhir. fold idx. rewrite length_firstn.
    rewrite (Permutation_length Hrows). reflexivity.
  - rewrite Hsplit, map_app in Hdates. clear - Hdates.
    induction (map date shown) as [|d ds IH]; [constructor|].
    cbn [app] in Hdates. inversion Hdates as [|? ? Hs Hall]; subst.
    constructor; [apply IH; exact Hs|].
    apply Forall_app in Hall. apply Hall.
  - exists (skipn 5 (take idx df)). split; [rewrite <- Hsplit; exact Hrows|].
    intros x y Hx Hy. rewrite Hsplit, map_app in Hdates.
    pose proof (StronglySorted_app_cross Z.ge _ _ Hdates (date x) (date y)
                  (in_map date _ _ Hx) (in_map date _ _ Hy)).
    lia.
Qed.

Lemma transaksi_terakhir_most_recent_witness :
  let df := map (fun d => mkTransaction d "Jajan" "Lainnya" "Keluar" 10000)
              [20393; 20399; 20394; 20398; 20395; 20397; 20396] in
  argsort_ok stable_argsort /\
  map date (transaksi_terakhir stable_argsort df)
    = [20399; 20398; 20397; 20396; 20395] /\
  List.length (transaksi_terakhir stable_argsort df) = 5%nat.
Proof.
  intros df. split; [exact stable_argsort_ok|]. split; [reflexivity|].
  exact (proj1 (transaksi_terakhir_most_recent stable_argsort df stable_argsort_ok)).
Defined.

(** * Grouping by category *)

Lemma string_compare_OT (a b : string) :
  OrdersEx.String_as_OT.compare a b = String.compare a b.
Proof. reflexivity. Qed.





Section Groups.









End Groups.

(** * The largest category of spending *)

(** For a frame with rows, the insights are the totals, the line on the
    trend and the line on the spending. *)
Lemma generate_insights_spending argsort today df days_window :
  df <> [] ->
  skipn 2 (fst (generate_insights argsort today df days_window))
  = spending_line argsort df /\
  List.length (firstn 2 (fst (generate_insights argsort today df days_window))) = 2%nat.
Proof.
  intros Hne. destruct df as [|r df]; [contradiction|].
  unfold generate_insights, spending_line.
  destruct (compute_summary (r :: df)) as [[tot_in tot_out] saldo].
  cbv zeta. cbn [fst].
  match goal with
  | |- context [if ?c then [NetFlow _ _] else _] => destruct c
  end; cbn [app skipn firstn List.length];
    (split; [|reflexivity]);
    destruct (filter _ (r :: df)); reflexivity.
Qed.





(** X21: the insights of a frame that has rows but no outflow have three
    lines, and the third says that there is no spending. *)
Theorem no_spending_line (argsort : list Z -> list nat) (today : Z)
    (df : list Transaction) (days_window : Z) :
  df <> [] ->
  (forall r, In r df -> type r <> "Keluar") ->
  fst (generate_insights argsort today df days_window)
  = firstn 2 (fst (generate_insights argsort today df days_window)) ++ [NoSpending] /\
  List.length (fst (generate_insights argsort today df days_window)) = 3%nat.
Proof.
  intros Hne Hno.
  destruct (generate_insights_spending argsort today df days_window Hne)
    as [Hskip Hlen].
  set (ins := fst (generate_insights argsort today df days_window)) in *.
  assert (Hline : spending_line argsort df = [NoSpending]).
  { unfold spending_line. cbv zeta.
    destruct (filter (fun r => (type r =? "Keluar")%string) df) as [|x l] eqn:E;
      [reflexivity|].
    exfalso. assert (Hx : In x (x :: l)) by (left; reflexivity).
    rewrite <- E in Hx. apply filter_In in Hx. destruct Hx as [Hx Hb].
    apply String.eqb_eq in Hb. exact (Hno x Hx Hb). }
  split.
  - rewrite <- Hline, <- Hskip. symmetry. apply firstn_skipn.
  - rewrite <- (firstn_skipn 2 ins), length_app, Hlen, Hskip, Hline. reflexivity.
Qed.

Lemma no_spending_line_witness :
  let df := [ mkTransaction 20390 "Gaji" "Penjualan" "Masuk" 900000 ] in
  df <> [] /\
  nth_error (fst (generate_insights stable_argsort 20400 df 30)) 2 = Some NoSpending.
Proof.
  intros df. split; [discriminate|].
  destruct (no_spending_line stable_argsort 20400 df 30) as [H _].
  - discriminate.
  - intros r [<-|[]]. discriminate.
  - rewrite H. reflexivity.
Defined.

(** * The upload block and the end of the script *)

Section UploadEffects.
Variable bytes : Type.
Variable read_csv : bytes -> result DataFrame.
Variable read_excel : bytes -> result DataFrame.
Variable to_datetime_date : list value -> result (list value).
Variable parse_number : string -> option number.
Variable list_required : list string.

Let impor' := impor bytes read_csv read_excel to_datetime_date parse_number
                list_required.
Let read_incoming' := read_incoming bytes read_csv read_excel to_datetime_date.

(** X22: the upload block writes the ledger only when it succeeds.  Its
    effects are nothing (no file), one error message, or the save of the
    frame the page goes on with, the success message with the number of
    rows read and the rerun, in this order; an error never comes with a
    save. *)
Theorem impor_saves_only_on_success (df df' : DataFrame)
    (uploaded : option (UploadedFile bytes)) (effects : list (Effect DataFrame)) :
  impor' df uploaded = (df', effects) ->
  (uploaded = None /\ df' = df /\ effects = []) \/
  (exists message, effects = [StError message]) \/
  (exists file incoming,
     uploaded = Some file /\
     read_incoming' file = Ok incoming /\
     effects = [SaveData df';
                StSuccess ("Berhasil mengimpor " ++ str_of_nat (nrows incoming)
                           ++ " baris.")%string;
                Rerun]).
Proof.
  unfold impor', read_incoming', impor. intros H.
  destruct uploaded as [file|].
  2:{ inversion H. left. auto. }
  right.
  destruct (read_incoming bytes read_csv read_excel to_datetime_date file)
    as [incoming|e] eqn:Eread.
  2:{ inversion H. left. eexists. reflexivity. }
  destruct (negb (issubset required (columns incoming))).
  { inversion H. left. eexists. reflexivity. }
  unfold merge_incoming in H.
  destruct (select incoming list_required) as [selected|e].
  2:{ inversion H. left. eexists. reflexivity. }
  cbv zeta in H.
  destruct (getitem (concat df selected) "amount") as [col|e]; cbn [bind] in H.
  2:{ inversion H. left. eexists. reflexivity. }
  destruct (normalize_amount parse_number col) as [amounts|e].
  2:{ inversion H. left. eexists. reflexivity. }
  unfold save_data in H.
  destruct (getitem (setitem (concat df selected) "amount" amounts) "date")
    as [dcol|e]; cbn [bind] in H.
  2:{ inversion H. left. eexists. reflexivity. }
  destruct (to_datetime_date dcol) as [dates|e]; cbn [bind] in H.
  2:{ inversion H. left. eexists. reflexivity. }
  injection H as <- <-. right. exists file, incoming.
  split; [reflexivity|]. split; [exact Eread|]. reflexivity.
Qed.


(** X24: a successful import puts the rows of the upload after those of
    the ledger: each required column of the frame that is saved holds the
    cells the ledger had, then those of the upload, the amounts being
    those of the two after the normalisation, and the columns of the
    ledger stay as they are. *)
Theorem impor_success_appends (df df' : DataFrame) (file : UploadedFile bytes)
    (incoming : DataFrame) (message : string) :
  Permutation list_required required ->
  incl required (columns df) ->
  read_incoming' file = Ok incoming ->
  impor' df (Some file) = (df', [SaveData df'; StSuccess message; Rerun]) ->
  columns df' = columns df /\
  (forall c a b,
     In c required -> c <> "amount" ->
     getitem df c = Ok a -> getitem incoming c = Ok b ->
     getitem df' c = Ok (a ++ b)) /\
  (forall a b,
     getitem df "amount" = Ok a -> getitem incoming "amount" = Ok b ->
     exists ints,
       normalize_amount parse_number (a ++ b) = Ok (map VInt ints) /\
       getitem df' "amount" = Ok (map VInt ints)).
Proof.
  intros Hperm Hdf Hread H.
  unfold impor', impor in H. unfold read_incoming' in Hread. rewrite Hread in H.
  destruct (negb (issubset required (columns incoming))); [discriminate H|].
  unfold merge_incoming in H.
  destruct (select incoming list_required) as [selected|e] eqn:Esel;
    [|discriminate H].
  cbv zeta in H.
  destruct (select_columns incoming list_required selected Esel) as [Hcols Hget].
  destruct (getitem (concat df selected) "amount") as [col|e] eqn:Ecol;
    cbn [bind] in H; [|discriminate H].
  destruct (normalize_amount parse_number col) as [amounts|e] eqn:Enorm;
    [|discriminate H].
  destruct (save_data to_datetime_date
              (setitem (concat df selected) "amount" amounts)) as [saved|e];
    [|discriminate H].
  injection H as Hdf' _. subst df'.
  assert (Hreq : forall c, In c required -> In c list_required).
  { intros c Hc. apply (Permutation_in c (Permutation_sym Hperm)). exact Hc. }
  assert (Hcc : columns (concat df selected) = columns df).
  { apply concat_columns. rewrite Hcols. intros c Hc. apply Hdf.
    apply (Permutation_in c Hperm). exact Hc. }
  split; [|split].
  - rewrite (columns_setitem_present _ "amount" col amounts Ecol). exact Hcc.
  - intros c a b Hc Hna Ha Hb. rewrite getitem_setitem_ne by congruence.
    apply concat_getitem; [exact Ha|]. rewrite (Hget c (Hreq c Hc)). exact Hb.
  - intros a b Ha Hb.
    assert (Hin : In "amount" required)
      by (right; right; right; right; left; reflexivity).
    rewrite (concat_getitem df selected "amount" a b Ha) in Ecol
      by (rewrite (Hget "amount" (Hreq _ Hin)); exact Hb).
    inversion Ecol; subst col.
    unfold normalize_amount in Enorm |- *.
    destruct (mapM _ (a ++ b)) as [ints|e]; cbn [bind] in Enorm |- *;
      [|discriminate Enorm].
    inversion Enorm; subst amounts. exists ints. split; [reflexivity|].
    apply getitem_setitem_eq.
Qed.
End UploadEffects.

Lemma impor_saves_only_on_success_witness :
  let incoming : DataFrame :=
    [ ("date", [VStr "2025-11-21"]);
      ("description", [VStr "Project Y"]);
      ("category", [VStr "Proyek"]);
      ("type", [VStr "Masuk"]);
      ("amount", [VStr "750000"]) ] in
  let file := mkUploadedFile "impor.csv" incoming in
  let after := impor DataFrame Sample.read Sample.read Sample.to_datetime_date
                 Sample.parse_number required sample (Some file) in
  snd after = [SaveData (fst after); StSuccess "Berhasil mengimpor 1 baris."; Rerun] /\
  ((Some file = None /\ fst after = sample /\ snd after = []) \/
   (exists message, snd after = [StError message]) \/
   (exists file' incoming',
      Some file = Some file' /\
      read_incoming DataFrame Sample.read Sample.read Sample.to_datetime_date file'
        = Ok incoming' /\
      snd after = [SaveData (fst after);
                   StSuccess ("Berhasil mengimpor " ++ str_of_nat (nrows incoming')
                              ++ " baris.")%string;
                   Rerun])).
Proof.
  intros incoming file after. split; [reflexivity|].
  apply (impor_saves_only_on_success DataFrame Sample.read Sample.read
           Sample.to_datetime_date Sample.parse_number required
           sample (fst after) (Some file) (snd after)).
  reflexivity.
Defined.


Lemma impor_success_appends_witness :
  let uploaded : DataFrame :=
    [ ("amount", [VStr "750000"]);
      ("catatan", [VStr "lunas"]);
      ("date", [VStr "2025-11-21"]);
      ("description", [VStr "Project Y"]);
      ("category", [VStr "Proyek"]);
      ("type", [VStr "Masuk"]) ] in
  let file := mkUploadedFile "impor.csv" uploaded in
  let after := impor DataFrame Sample.read Sample.read Sample.to_datetime_date
                 Sample.parse_number required sample (Some file) in
  snd after = [SaveData (fst after); StSuccess "Berhasil mengimpor 1 baris."; Rerun] /\
  columns (fst after) = ["date"; "description"; "category"; "type"; "amount"] /\
  getitem (fst after) "amount"
    = Ok [VInt 1500000; VInt 300000; VInt 2500000; VInt 75000;
          VInt 500000; VInt 200000; VInt 750000].
Proof.
  intros uploaded file after. split; [reflexivity|].
  assert (Hincl : incl required (columns sample)).
  { intros c Hc. exact Hc. }
  destruct (impor_success_appends DataFrame Sample.read Sample.read
              Sample.to_datetime_date Sample.parse_number required
              sample (fst after) file (setitem uploaded "date" [VDate 20413])
              "Berhasil mengimpor 1 baris."
              (Permutation_refl required) Hincl eq_refl eq_refl)
    as [Hcols [_ Hamount]].
  split; [exact Hcols|].
  destruct (Hamount [VInt 1500000; VInt 300000; VInt 2500000; VInt 75000;
                     VInt 500000; VInt 200000] [VStr "750000"] eq_refl eq_refl)
    as [ints [Hnorm Hget]].
  rewrite Hget. injection Hnorm as <-. reflexivity.
Defined.

(** * The bars of the spending by category *)





